(** * thoth: tool dispatch, shell-command tool and multi-file reader

    A shallow embedding of [main.go] (the chat loop with its tool-call
    loop), package [tools] (the [Tool] interface, [RunShellCommandTool] and
    [ReadManyFilesTool]).

    Go values are modelled as follows.
    - [string] and [[]byte] are [string] (a list of 8-bit characters).
    - [int] is [Z]; the values that occur (exit codes, signal numbers,
      process ids) are far from the word size.
    - [any] is the inductive [any] below.
    - [map[string]any] is [gmap string any]; reading a nil map and reading
      an empty map agree in Go, so an argument map is never optional.  A
      function that returns a map which may be [nil] returns an [option].
    - [error] is the text of its [Error()] method; a nil error is [None].
    - calls that leave the program (the operating system, the file system,
      the model client) take their answers from an explicit environment and
      are recorded, in program order, in a list of events. *)

From stdpp Require Import base option list gmap strings.
From Stdlib Require Import ZArith String Ascii Lia.

Local Set Warnings "-register-all,-clear-no-such-hyp".
Local Open Scope Z_scope.
Local Open Scope string_scope.
Local Open Scope list_scope.

(** The line feed written [\n] in the Go sources. *)
Definition LF : string := String "010"%char EmptyString.

Definition error : Type := string.

(** ** The [genai] types, as far as the program touches them *)
Module genai.

Inductive any : Type :=
| ANil
| ABool (b : bool)
| AInt (n : Z)
| AString (s : string)
| ASlice (l : list any)
| AMap (m : list (string * any)).

(** [m[k]] on a [map[string]any]: the nil interface when [k] is absent. *)
Definition index (m : gmap string any) (k : string) : any :=
  default ANil (m !! k).

(** [v.(string)] in its two-result form. *)
Definition as_string (v : any) : string * bool :=
  match v with
  | AString s => (s, true)
  | _ => ("", false)
  end.

(** [v.([]any)] in its two-result form. *)
Definition as_slice (v : any) : list any * bool :=
  match v with
  | ASlice l => (l, true)
  | _ => ([], false)
  end.

Record FunctionCall : Type := {
  fc_Name : string;
  fc_Args : gmap string any
}.

Record FunctionResponse : Type := {
  fr_Name : string;
  fr_Response : option (gmap string any)
}.

Record Part : Type := {
  Text : string;
  FunctionCall_ : option FunctionCall;
  FunctionResponse_ : option FunctionResponse
}.

Record Content : Type := { Parts : list Part }.

Record Candidate : Type := { Content_ : option Content }.

Record GenerateContentResponse : Type := { Candidates : list Candidate }.

(** Of a declaration only the name, the description and the parameter
    names are kept. *)
Record FunctionDeclaration : Type := {
  Name : string;
  Description : string;
  Properties : list string;
  Required : list string
}.

Record Tool : Type := { FunctionDeclarations : list FunctionDeclaration }.

Definition text_part (s : string) : Part :=
  {| Text := s; FunctionCall_ := None; FunctionResponse_ := None |}.

Definition call_part (c : FunctionCall) : Part :=
  {| Text := ""; FunctionCall_ := Some c; FunctionResponse_ := None |}.

Definition response_part (r : FunctionResponse) : Part :=
  {| Text := ""; FunctionCall_ := None; FunctionResponse_ := Some r |}.

End genai.

Import genai.

(** ** [context.Context] *)

(** A context as the tools observe it: [Done k] tells whether the [Done]
    channel is found closed at the [k]-th time it is polled, [Err] is the
    text of [ctx.Err()]. *)
Record Context : Type := {
  Done : nat → bool;
  Err : error
}.

Definition Background : Context :=
  {| Done := λ _, false; Err := "" |}.

(** ** The library and the operating system *)

(** [os.Stat]: an error, with the verdict of [os.IsNotExist] on it, or a
    [FileInfo], of which only [IsDir()] is read. *)
Inductive StatResult : Type :=
| StatErr (e : error) (notExist : bool)
| StatInfo (isDir : bool).

Class Platform : Type := {
  filepath_Join : string → string → string;
  filepath_Glob : string → list string * option error;
  os_Stat : string → StatResult;
  os_ReadFile : string → string * option error;
  (** the text [fmt] prints for the verb [%v] *)
  fmt_v : any → string
}.

(** [syscall.WaitStatus] on Linux: a 32-bit word. *)
Module WaitStatus.

Definition t : Type := Z.

Definition mask : Z := 0x7F.
Definition exited : Z := 0x00.
Definition stopped : Z := 0x7F.
Definition shift : Z := 8.

Definition Exited (w : t) : bool := Z.eqb (Z.land w mask) exited.

Definition Signaled (w : t) : bool :=
  negb (Z.eqb (Z.land w mask) stopped) && negb (Z.eqb (Z.land w mask) exited).

Definition ExitStatus (w : t) : Z :=
  if negb (Exited w) then -1 else Z.land (Z.shiftr w shift) 0xFF.

Definition Signal (w : t) : Z :=
  if negb (Signaled w) then -1 else Z.land w mask.

End WaitStatus.

Definition SIGTERM : Z := 15.

(** [strings.ContainsAny s chars], for [chars] made of one-byte runes. *)
Fixpoint strings_IndexByte (c : ascii) (s : string) : bool :=
  match s with
  | EmptyString => false
  | String d s' => Ascii.eqb d c || strings_IndexByte c s'
  end.

Fixpoint strings_ContainsAny (s chars : string) : bool :=
  match s with
  | EmptyString => false
  | String c s' => strings_IndexByte c chars || strings_ContainsAny s' chars
  end.

(** [bytes.ContainsRune b r] for a rune below [utf8.RuneSelf], where it is
    a search for the byte [r]. *)
Definition bytes_ContainsRune (b : string) (r : ascii) : bool :=
  strings_IndexByte r b.

(** ** Package [tools] *)
Module tools.

(** The interface [Tool].  A tool acts on a world [W]. *)
Record Tool (W : Type) : Type := {
  Declaration : FunctionDeclaration;
  Execute : Context → gmap string any → W →
            (option (gmap string any) * option error) * W
}.
Arguments Declaration {W} _.
Arguments Execute {W} _ _ _ _.

(** *** [RunShellCommandTool] *)
Module RunShellCommandTool.

Record t : Type := { ProjectRoot : string }.

Definition Declaration (_ : t) : FunctionDeclaration :=
  {| Name := "run_shell_command";
     Description := "This tool executes a given shell command as `bash -c <command>`. Command can start background processes using `&`. Command is executed as a subprocess that leads its own process group. Command process group can be terminated as `kill -- -PGID` or signaled as `kill -s SIGNAL -- -PGID`. The following information is returned: Command: Executed command. Directory: Directory (relative to project root) where command was executed, or `(root)`. Stdout: Output on stdout stream. Can be `(empty)` or partial on error and for any unwaited background processes. Stderr: Output on stderr stream. Can be `(empty)` or partial on error and for any unwaited background processes. Error: Error or `(none)` if no error was reported for the subprocess. Exit Code: Exit code or `(none)` if terminated by signal. Signal: Signal number or `(none)` if no signal was received. Background PIDs: List of background processes started or `(none)`. Process Group PGID: Process group started or `(none)`";
     Properties := ["command"; "description"; "directory"];
     Required := ["command"] |}.

(** Which case of the [select] fires. *)
Inductive SelectCase : Type :=
| CtxDone    (* case <-ctx.Done() *)
| WaitDone.  (* case err := <-done *)

(** A non-nil error of [cmd.Wait()]: an [*exec.ExitError] with the text
    of its [Error()] and its [Sys()] when that is a
    [syscall.WaitStatus], or an error of another type. *)
Inductive WaitError : Type :=
| ExitError (msg : string) (sys : option WaitStatus.t)
| OtherError (msg : string).

(** What one call of [Execute] meets outside the program. *)
Record Run : Type := {
  start_err : option error;        (* cmd.Start() *)
  Pid : Z;                         (* cmd.Process.Pid *)
  selected : SelectCase;
  wait_err : option WaitError;     (* the value sent on done *)
  getpgid_cancelled : Z * option error;  (* Getpgid in the first case *)
  getpgid_report : Z * option error;     (* Getpgid after the select *)
  stdout : string;                 (* stdoutBuf.String() *)
  stderr : string                  (* stderrBuf.String() *)
}.

(** The calls [Execute] itself makes, in program order.  The command is
    made with [exec.CommandContext]: what [os/exec] then does on its own
    (it kills the process once the context is done) is not a call of
    [Execute] and is not among these events. *)
Inductive Event : Type :=
| EvStart (argv : list string) (dir : string) (setpgid : bool)
| EvGoWait                       (* go func() { done <- cmd.Wait() }() *)
| EvGetpgid (pid : Z)
| EvKill (pid : Z) (sig : Z)
| EvRecvDone.                    (* a value is received from done *)

(** Lines 90-92 and the second case of the [select]: exit code, signal
    and error text. *)
Definition decode (err : option WaitError) : Z * Z * string :=
  let exitCode := -1 in
  let signal := -1 in
  let cmdErr := "(none)" in
  match err with
  | Some (ExitError msg sys) =>
      let cmdErr := msg in
      match sys with
      | Some status =>
          let exitCode := WaitStatus.ExitStatus status in
          if WaitStatus.Signaled status
          then (exitCode, WaitStatus.Signal status, cmdErr)
          else (exitCode, signal, cmdErr)
      | None => (exitCode, signal, cmdErr)
      end
  | Some (OtherError msg) => (exitCode, signal, msg)
  | None => (0, signal, cmdErr)
  end.

(** Lines 66-70: the working directory of the command. *)
Definition cmd_Dir `{Platform} (tool : t) (dir : string) : string :=
  if negb (String.eqb dir "")
  then filepath_Join (ProjectRoot tool) dir
  else ProjectRoot tool.

Definition Execute `{Platform} (tool : t) (ctx : Context) (run : Run)
    (args : gmap string any)
  : (option (gmap string any) * option error) * list Event :=
  let '(cmdStr, ok) := as_string (index args "command") in
  if negb ok then
    ((None, Some "missing or invalid 'command' argument"), [])
  else
  let '(dir, _) := as_string (index args "directory") in
  let started := [EvStart ["bash"; "-c"; cmdStr] (cmd_Dir tool dir) true] in
  match start_err run with
  | Some err =>
      ((None, Some ("failed to start command: " +:+ err)), started)
  | None =>
      match selected run with
      | CtxDone =>
          let '(pgid, err) := getpgid_cancelled run in
          let killed :=
            match err with
            | None => [EvKill (- pgid) SIGTERM]
            | Some _ => []
            end in
          ((None, Some (Err ctx)),
           started ++ [EvGoWait; EvGetpgid (Pid run)] ++ killed
                   ++ [EvRecvDone])
      | WaitDone =>
          let '(exitCode, signal, cmdErr) := decode (wait_err run) in
          let pgid :=
            match getpgid_report run with
            | (p, None) => p
            | (_, Some _) => -1
            end in
          let result : gmap string any :=
            list_to_map
              [("Command", AString cmdStr);
               ("Directory", AString dir);
               ("Stdout", AString (stdout run));
               ("Stderr", AString (stderr run));
               ("Error", AString cmdErr);
               ("Exit Code", AInt exitCode);
               ("Signal", AInt signal);
               ("Background PIDs", ASlice []);
               ("Process Group PGID", AInt pgid)] in
          ((Some result, None),
           started ++ [EvGoWait; EvRecvDone; EvGetpgid (Pid run)])
      end
  end.

End RunShellCommandTool.

(** *** [ReadManyFilesTool] *)
Module ReadManyFilesTool.

Record t : Type := { ProjectRoot : string }.

Definition Declaration (_ : t) : FunctionDeclaration :=
  {| Name := "read_many_files";
     Description := "Reads content from multiple files specified by paths or glob patterns within a configured target directory. For text files, it concatenates their content into a single string, separated by '--- {filePath} ---'. Binary files (images, PDFs, etc.) will be listed by their path with a note that their content is not included. Glob patterns like 'src/**/*.js' are supported. Paths are relative to the project root. Avoid using for single files if a more specific single-file reading tool is available, unless the user specifically requests to process a list containing just one file via this tool.";
     Properties := ["paths"; "exclude"; "include"; "recursive";
                    "useDefaultExcludes"; "file_filtering_options"];
     Required := ["paths"] |}.

Section Execute.
Context `{Platform}.
Variable tool : t.
Variable ctx : Context.

(** The first loop: every pattern is joined to the project root and,
    when it has a glob metacharacter, expanded. *)
Fixpoint range_paths (paths : list any) (filePaths : list string)
  : list string * option error :=
  match paths with
  | [] => (filePaths, None)
  | p :: paths' =>
      let '(pattern, ok) := as_string p in
      if negb ok then
        ([], Some ("invalid path pattern: " +:+ fmt_v p))
      else
      let absPattern := filepath_Join (ProjectRoot tool) pattern in
      if strings_ContainsAny pattern "*?[]" then
        let '(matches, err) := filepath_Glob absPattern in
        match err with
        | Some e =>
            ([], Some ("error globbing pattern " +:+ pattern
                       +:+ ": " +:+ e))
        | None => range_paths paths' (filePaths ++ matches)
        end
      else range_paths paths' (filePaths ++ [absPattern])
  end.

(** The second loop: the first occurrence of every path is kept. *)
Fixpoint range_filePaths (filePaths : list string)
    (seen : gmap string bool) (uniqueFilePaths : list string)
  : list string :=
  match filePaths with
  | [] => uniqueFilePaths
  | p :: filePaths' =>
      if negb (default false (seen !! p)) then
        range_filePaths filePaths' (<[p := true]> seen)
                        (uniqueFilePaths ++ [p])
      else range_filePaths filePaths' seen uniqueFilePaths
  end.

(** What one turn of the third loop writes to [contentBuilder], after
    the poll of the context. *)
Definition write_file (filePath : string) : string :=
  match os_Stat filePath with
  | StatErr err notExist =>
      if notExist then "---" +:+ filePath +:+ " (Not Found)---" +:+ LF
      else "---" +:+ filePath +:+ " (Error: " +:+ err +:+ ")---" +:+ LF
  | StatInfo isDir =>
      if isDir then "---" +:+ filePath +:+ " (Directory)---" +:+ LF
      else
        let '(data, err) := os_ReadFile filePath in
        match err with
        | Some e =>
            "---" +:+ filePath +:+ " (Error reading: " +:+ e
                  +:+ ")---" +:+ LF
        | None =>
            if bytes_ContainsRune data Ascii.zero then
              "---" +:+ filePath
                    +:+ " (Binary File, content not included)---" +:+ LF
            else "---" +:+ filePath +:+ " --- " +:+ data +:+ LF
        end
  end.

(** The third loop; [polls] counts the polls of the context made so
    far. *)
Fixpoint range_uniqueFilePaths (uniqueFilePaths : list string)
    (polls : nat) (contentBuilder : string) : string * option error :=
  match uniqueFilePaths with
  | [] => (contentBuilder, None)
  | filePath :: rest =>
      if Done ctx polls then ("", Some (Err ctx))
      else range_uniqueFilePaths rest (S polls)
             (contentBuilder +:+ write_file filePath)
  end.

Definition Execute (args : gmap string any)
  : option (gmap string any) * option error :=
  let '(paths, ok) := as_slice (index args "paths") in
  if negb ok then (None, Some "missing or invalid 'paths' argument")
  else
  match range_paths paths [] with
  | (_, Some err) => (None, Some err)
  | (filePaths, None) =>
      let uniqueFilePaths := range_filePaths filePaths ∅ [] in
      match range_uniqueFilePaths uniqueFilePaths 0 "" with
      | (_, Some err) => (None, Some err)
      | (content, None) =>
          (Some {[ "content" := AString content ]}, None)
      end
  end.

End Execute.

End ReadManyFilesTool.

End tools.

(** ** Package [main] *)
Module main.

Import tools.

Inductive LogLine : Type :=
| LogCalled (name : string) (args : gmap string any)
    (* "Model called tool: %s with args: %v" *)
| LogToolError (name : string) (err : error)
    (* "Error executing tool %s: %v" *)
| LogSendToolResponses (err : error)
    (* "Error sending tool responses: %v" *)
| LogSendMessage (err : error)
    (* "Error sending message: %v" *)
| LogReadInput (err : error).
    (* "Error reading input: %v" *)

(** What the program does to the outside, in program order. *)
Inductive Event : Type :=
| EvFatal (msg : string)                            (* log.Fatal *)
| EvLog (line : LogLine)                            (* log.Printf *)
| EvPrint (s : string)                              (* fmt.Print* *)
| EvNewClient (apiKey : string)
| EvChatsCreate (model : string) (tools : list genai.Tool)
| EvSendMessage (parts : list Part)
| EvExecute (name : string) (args : gmap string any).

(** The model client: every call answers and moves the world. *)
Record Client (W : Type) : Type := {
  NewClient : string → W → option error * W;
  Chats_Create : string → list genai.Tool → W → option error * W;
  SendMessage : list Part → W →
                (option GenerateContentResponse * option error) * W
}.
Arguments NewClient {W} _ _ _.
Arguments Chats_Create {W} _ _ _ _.
Arguments SendMessage {W} _ _ _.

(** The process environment: the credential, the lines the scanner
    yields before it stops, and [scanner.Err()]. *)
Record Env : Type := {
  GEMINI_API_KEY : string;
  stdin : list string;
  scanner_Err : option error
}.

(** Computations that move the world and emit events. *)
Definition M (W A : Type) : Type := W → A * W * list Event.

Global Instance M_ret {W} : MRet (M W) := λ A a w, (a, w, []).

Global Instance M_bind {W} : MBind (M W) := λ A B f m w,
  let '(a, w1, e1) := m w in
  let '(b, w2, e2) := f a w1 in
  (b, w2, e1 ++ e2).

Definition emit {W} (e : Event) : M W unit := λ w, (tt, w, [e]).

(** A call that leaves the program: the event, then the answer. *)
Definition call {W A} (e : Event) (f : W → A * W) : M W A := λ w,
  let '(a, w') := f w in (a, w', [e]).

Inductive Flow : Type :=
| Break
| Next (resp : option GenerateContentResponse).

Inductive Exit : Type :=
| Returned     (* main returns *)
| Fatal        (* log.Fatal ended the process *)
| OutOfFuel.   (* the tool-call loop was cut off *)

Section Loop.
Context {W : Type}.
Variable toolRegistry : gmap string (Tool W).
Variable client : Client W.
Variable ctx : Context.

(** Lines 159-166: look the tool up and run it. *)
Definition dispatch (c : FunctionCall)
  : M W (option (gmap string any) * option error) :=
  match toolRegistry !! fc_Name c with
  | Some tool =>
      call (EvExecute (fc_Name c) (fc_Args c))
           (Execute tool ctx (fc_Args c))
  | None => mret (None, Some ("unknown tool: " +:+ fc_Name c))
  end.

(** The body of the loop over the parts of a candidate. *)
Definition range_Parts_body (acc : list Part * string) (part : Part)
  : M W (list Part * string) :=
  let '(toolResponses, modelTextResponse) := acc in
  match FunctionCall_ part with
  | Some c =>
      emit (EvLog (LogCalled (fc_Name c) (fc_Args c)));;
      '(toolResult, toolErr) ← dispatch c;
      match toolErr with
      | Some e =>
          emit (EvLog (LogToolError (fc_Name c) e));;
          mret (toolResponses ++
                  [response_part
                     {| fr_Name := fc_Name c;
                        fr_Response := Some {[ "error" := AString e ]} |}],
                modelTextResponse)
      | None =>
          mret (toolResponses ++
                  [response_part
                     {| fr_Name := fc_Name c;
                        fr_Response := toolResult |}],
                modelTextResponse)
      end
  | None =>
      if negb (String.eqb (Text part) "")
      then mret (toolResponses, modelTextResponse +:+ Text part)
      else mret (toolResponses, modelTextResponse)
  end.

Fixpoint range_Parts (parts : list Part) (acc : list Part * string)
  : M W (list Part * string) :=
  match parts with
  | [] => mret acc
  | part :: parts' =>
      acc' ← range_Parts_body acc part;
      range_Parts parts' acc'
  end.

Fixpoint range_Candidates (cands : list Candidate)
    (acc : list Part * string) : M W (list Part * string) :=
  match cands with
  | [] => mret acc
  | cand :: cands' =>
      match Content_ cand with
      | None => range_Candidates cands' acc
      | Some content =>
          acc' ← range_Parts (Parts content) acc;
          range_Candidates cands' acc'
      end
  end.

(** One turn of [toolCallLoop]. *)
Definition toolCallLoop_body (resp : option GenerateContentResponse)
  : M W Flow :=
  match resp with
  | None => emit (EvPrint ("No response candidates" +:+ LF));; mret Break
  | Some r =>
      if Nat.eqb (List.length (Candidates r)) 0 then
        emit (EvPrint ("No response candidates" +:+ LF));; mret Break
      else
        '(toolResponses, modelTextResponse) ←
          range_Candidates (Candidates r) ([], "");
        if Nat.ltb 0 (List.length toolResponses) then
          '(resp', sendErr) ←
            call (EvSendMessage toolResponses)
                 (SendMessage client toolResponses);
          match sendErr with
          | Some e => emit (EvLog (LogSendToolResponses e));; mret Break
          | None => mret (Next resp')
          end
        else
          (if negb (String.eqb modelTextResponse "")
           then emit (EvPrint ("Gemini: " +:+ modelTextResponse +:+ LF))
           else mret tt);;
          mret Break
  end.

(** [toolCallLoop], cut off after [fuel] turns; the result tells
    whether the loop was left by a [break]. *)
Fixpoint toolCallLoop (fuel : nat) (resp : option GenerateContentResponse)
  : M W bool :=
  match fuel with
  | O => mret false
  | S fuel' =>
      flow ← toolCallLoop_body resp;
      match flow with
      | Break => mret true
      | Next resp' => toolCallLoop fuel' resp'
      end
  end.

(** The loop over the input lines; every tool-call loop gets [fuel]
    turns. *)
Fixpoint range_input (fuel : nat) (lines : list string) : M W bool :=
  emit (EvPrint "> ");;
  match lines with
  | [] => mret true
  | input :: lines' =>
      if String.eqb input "quit" then mret true
      else
        '(resp, err) ←
          call (EvSendMessage [text_part input])
               (SendMessage client [text_part input]);
        match err with
        | Some e =>
            emit (EvLog (LogSendMessage e));;
            range_input fuel lines'
        | None =>
            left ← toolCallLoop fuel resp;
            if left : bool then range_input fuel lines' else mret false
        end
  end.

End Loop.

(** Lines 102-114 of [main]. *)
Definition toolRegistry {W} : gmap string (Tool W) := ∅.

Definition functionDeclarations {W} : list FunctionDeclaration :=
  (λ kv, Declaration kv.2) <$> map_to_list (toolRegistry (W := W)).

Definition genaiTools {W} : list genai.Tool :=
  if Nat.ltb 0 (List.length (functionDeclarations (W := W)))
  then [ {| FunctionDeclarations := functionDeclarations (W := W) |} ]
  else [].

Definition main {W} (client : Client W) (env : Env) (fuel : nat)
  : M W Exit :=
  let ctx := Background in
  let apiKey := GEMINI_API_KEY env in
  if String.eqb apiKey "" then
    emit (EvFatal "GEMINI_API_KEY environment variable not set");;
    mret Fatal
  else
    err ← call (EvNewClient apiKey) (NewClient client apiKey);
    match err with
    | Some e => emit (EvFatal e);; mret Fatal
    | None =>
        err ← call (EvChatsCreate "gemini-1.5-flash" (genaiTools (W := W)))
                   (Chats_Create client "gemini-1.5-flash"
                                 (genaiTools (W := W)));
        match err with
        | Some e => emit (EvFatal e);; mret Fatal
        | None =>
            emit (EvPrint ("Enter your messages (type 'quit' to exit):"
                           +:+ LF));;
            finished ← range_input toolRegistry client ctx fuel (stdin env);
            if finished : bool then
              match scanner_Err env with
              | Some e => emit (EvLog (LogReadInput e))
              | None => mret tt
              end;;
              mret Returned
            else mret OutOfFuel
        end
    end.

End main.

(** ** Concrete environments for the examples *)
Module examples.

Import tools.

(** A platform with an empty file system but for three paths. *)
Definition platform : Platform :=
  {| filepath_Join := λ root p, root +:+ "/" +:+ p;
     filepath_Glob := λ _, ([], None);
     os_Stat := λ p,
       if String.eqb p "/proj/docs" then StatInfo true
       else if String.eqb p "/proj/a.txt" then StatInfo false
       else if String.eqb p "/proj/logo.txt" then StatInfo false
       else StatErr "no such file or directory" true;
     os_ReadFile := λ p,
       if String.eqb p "/proj/a.txt" then ("alpha", None)
       else if String.eqb p "/proj/logo.txt"
       then (String "P" (String Ascii.zero "NG"), None)
       else ("", Some "permission denied");
     fmt_v := λ v,
       match v with
       | AString s => s
       | AInt 42 => "42"
       | _ => "<nil>"
       end |}.

Definition shell : RunShellCommandTool.t :=
  {| RunShellCommandTool.ProjectRoot := "/proj" |}.

Definition reader : ReadManyFilesTool.t :=
  {| ReadManyFilesTool.ProjectRoot := "/proj" |}.

Definition cancelled : Context :=
  {| Done := λ _, true; Err := "context canceled" |}.

(** [echo hello] run to its end. *)
Definition echo_args : gmap string any :=
  {[ "command" := AString "echo hello" ]}.

Definition echo_run : RunShellCommandTool.Run :=
  {| RunShellCommandTool.start_err := None;
     RunShellCommandTool.Pid := 4242;
     RunShellCommandTool.selected := RunShellCommandTool.WaitDone;
     RunShellCommandTool.wait_err := None;
     RunShellCommandTool.getpgid_cancelled := (4242, None);
     RunShellCommandTool.getpgid_report := (4242, None);
     RunShellCommandTool.stdout := "hello" +:+ LF;
     RunShellCommandTool.stderr := "" |}.

(** [kill -9 $$]: the shell ends by signal 9. *)
Definition kill_args : gmap string any :=
  {[ "command" := AString "kill -9 $$" ]}.

Definition kill_run : RunShellCommandTool.Run :=
  {| RunShellCommandTool.start_err := None;
     RunShellCommandTool.Pid := 4243;
     RunShellCommandTool.selected := RunShellCommandTool.WaitDone;
     RunShellCommandTool.wait_err :=
       Some (RunShellCommandTool.ExitError "signal: killed" (Some 9));
     RunShellCommandTool.getpgid_cancelled := (4243, None);
     RunShellCommandTool.getpgid_report := (-1, Some "no such process");
     RunShellCommandTool.stdout := "";
     RunShellCommandTool.stderr := "" |}.

(** [sleep 60] with the context cancelled while it runs. *)
Definition sleep_args : gmap string any :=
  {[ "command" := AString "sleep 60" ]}.

Definition sleep_run : RunShellCommandTool.Run :=
  {| RunShellCommandTool.start_err := None;
     RunShellCommandTool.Pid := 4244;
     RunShellCommandTool.selected := RunShellCommandTool.CtxDone;
     RunShellCommandTool.wait_err :=
       Some (RunShellCommandTool.ExitError "signal: terminated" (Some 15));
     RunShellCommandTool.getpgid_cancelled := (4244, None);
     RunShellCommandTool.getpgid_report := (4244, None);
     RunShellCommandTool.stdout := "";
     RunShellCommandTool.stderr := "" |}.

(** The same, but the process is gone when its group is looked up: the
    context's own kill and the waiting goroutine came first. *)
Definition reaped_run : RunShellCommandTool.Run :=
  {| RunShellCommandTool.start_err := None;
     RunShellCommandTool.Pid := 4244;
     RunShellCommandTool.selected := RunShellCommandTool.CtxDone;
     RunShellCommandTool.wait_err :=
       Some (RunShellCommandTool.ExitError "signal: killed" (Some 9));
     RunShellCommandTool.getpgid_cancelled := (-1, Some "no such process");
     RunShellCommandTool.getpgid_report := (-1, Some "no such process");
     RunShellCommandTool.stdout := "";
     RunShellCommandTool.stderr := "" |}.

(** A platform on which the pattern "[" is refused by [filepath.Glob]. *)
Definition strict_glob : Platform :=
  {| filepath_Join := filepath_Join (Platform := platform);
     filepath_Glob := λ p,
       if String.eqb p "/proj/[" then ([], Some "syntax error in pattern")
       else ([], None);
     os_Stat := os_Stat (Platform := platform);
     os_ReadFile := os_ReadFile (Platform := platform);
     fmt_v := fmt_v (Platform := platform) |}.

(** A text file, a missing file, a directory, the text file again and a
    file with a null byte. *)
Definition mixed_args : gmap string any :=
  {[ "paths" := ASlice [AString "a.txt"; AString "missing.txt";
                        AString "docs"; AString "a.txt";
                        AString "logo.txt"] ]}.

(** A world that counts the executions of its one tool. *)
Definition ping : Tool nat :=
  {| Declaration :=
       {| Name := "ping"; Description := "Answers pong.";
          Properties := []; Required := [] |};
     Execute := λ _ _ n,
       ((Some {[ "pong" := AInt (Z.of_nat n) ]}, None), S n) |}.

Definition registry : gmap string (Tool nat) := {[ "ping" := ping ]}.

(** A client that answers every message with a nil response. *)
Definition silent {W} : main.Client W :=
  {| main.NewClient := λ _ w, (None, w);
     main.Chats_Create := λ _ _ w, (None, w);
     main.SendMessage := λ _ w, ((None, None), w) |}.

Definition call_ping : FunctionCall :=
  {| fc_Name := "ping"; fc_Args := ∅ |}.

Definition call_nope : FunctionCall :=
  {| fc_Name := "nope"; fc_Args := {[ "x" := AInt 1 ]} |}.

(** One candidate: a text and two calls. *)
Definition two_calls : GenerateContentResponse :=
  {| Candidates :=
       [ {| Content_ :=
              Some {| Parts := [text_part "Let me check.";
                                call_part call_ping;
                                call_part call_nope] |} |} ] |}.

(** Two candidates: the call and a part of the text are in the second. *)
Definition first_candidate : Candidate :=
  {| Content_ := Some {| Parts := [text_part "Hello"] |} |}.

Definition second_candidate : Candidate :=
  {| Content_ := Some {| Parts := [call_part call_nope;
                                   text_part " world"] |} |}.

End examples.

(** ** Vocabulary of the statements *)

Import tools.

(** The process ended on its own: [cmd.Wait()] gave no error, or an exit
    error whose wait status says [Exited]. *)
Definition exited_normally (err : option RunShellCommandTool.WaitError)
  : Prop :=
  err = None ∨
  ∃ msg status,
    err = Some (RunShellCommandTool.ExitError msg (Some status)) ∧
    WaitStatus.Exited status = true.

(** The events of a cancelled run, after the start. *)
Definition cancelled_events (run : RunShellCommandTool.Run)
  : list RunShellCommandTool.Event :=
  [RunShellCommandTool.EvGoWait;
   RunShellCommandTool.EvGetpgid (RunShellCommandTool.Pid run)] ++
  match RunShellCommandTool.getpgid_cancelled run with
  | (pgid, None) => [RunShellCommandTool.EvKill (- pgid) SIGTERM]
  | (_, Some _) => []
  end ++
  [RunShellCommandTool.EvRecvDone].

Definition is_Kill (e : RunShellCommandTool.Event) : bool :=
  match e with
  | RunShellCommandTool.EvKill _ _ => true
  | _ => false
  end.

(** A path entry the first loop of the reader gets past: a string, whose
    expansion, when it is a pattern, gives no error. *)
Definition expands `{Platform} (tool : ReadManyFilesTool.t) (p : any)
  : Prop :=
  ∃ pattern,
    p = AString pattern ∧
    (strings_ContainsAny pattern "*?[]" = true →
     (filepath_Glob
        (filepath_Join (ReadManyFilesTool.ProjectRoot tool) pattern)).2
     = None).

(** The text the reader builds for a list of files. *)
Definition written `{Platform} (files : list string) : string :=
  foldl (λ content filePath,
           content +:+ ReadManyFilesTool.write_file filePath)
        "" files.

(** The parts the tool-call loop goes through: those of every candidate
    that has a content, in order. *)
Definition all_parts (cands : list Candidate) : list Part :=
  flat_map (λ cand,
              match Content_ cand with
              | Some content => Parts content
              | None => []
              end) cands.

(** The function calls among some parts, in order. *)
Definition function_calls (parts : list Part) : list FunctionCall :=
  omap FunctionCall_ parts.

(** [part] is a function response, and nothing else, to the call [c]. *)
Definition answers (c : FunctionCall) (part : Part) : Prop :=
  ∃ response,
    part = response_part {| fr_Name := fc_Name c; fr_Response := response |}.

(** The part that reports the error [e] for the call [c]. *)
Definition error_response (c : FunctionCall) (e : error) : Part :=
  response_part
    {| fr_Name := fc_Name c;
       fr_Response := Some {[ "error" := AString e ]} |}.

(** Events that are neither output nor a message to the model. *)
Definition quiet (e : main.Event) : Prop :=
  match e with
  | main.EvLog _ | main.EvExecute _ _ => True
  | _ => False
  end.

(** Events allowed when no tool is registered: no execution, and chats
    created without tools. *)
Definition toolless (e : main.Event) : Prop :=
  match e with
  | main.EvExecute _ _ => False
  | main.EvChatsCreate _ tools => tools = []
  | _ => True
  end.

(** Every event of [m], from every world, satisfies [P]. *)
Definition emits {W A} (P : main.Event → Prop) (m : main.M W A) : Prop :=
  ∀ w, Forall P (m w).2.

(** ** The first version of [main]

    [main.go] opens with the program as it was before tools: the same
    start-up, no registry, and an input loop that prints the text parts of
    every answer. *)
Module main_v1.

Import main.

Section Loop.
Context {W : Type}.
Variable client : Client W.

(** Lines 61-65: the text parts of one candidate. *)
Fixpoint range_Parts (parts : list Part) : M W unit :=
  match parts with
  | [] => mret tt
  | part :: parts' =>
      (if negb (String.eqb (Text part) "")
       then emit (EvPrint ("Gemini: " +:+ Text part +:+ LF))
       else mret tt);;
      range_Parts parts'
  end.

(** Lines 57-66. *)
Fixpoint range_Candidates (cands : list Candidate) : M W unit :=
  match cands with
  | [] => mret tt
  | cand :: cands' =>
      match Content_ cand with
      | None => range_Candidates cands'
      | Some content =>
          range_Parts (Parts content);;
          range_Candidates cands'
      end
  end.

(** Lines 36-67. *)
Fixpoint range_input (lines : list string) : M W unit :=
  emit (EvPrint "> ");;
  match lines with
  | [] => mret tt
  | input :: lines' =>
      if String.eqb input "quit" then mret tt
      else
        '(resp, err) ←
          call (EvSendMessage [text_part input])
               (SendMessage client [text_part input]);
        match err with
        | Some e =>
            emit (EvLog (LogSendMessage e));;
            range_input lines'
        | None =>
            match resp with
            | None =>
                emit (EvPrint ("No response candidates" +:+ LF));;
                range_input lines'
            | Some r =>
                if Nat.eqb (List.length (Candidates r)) 0 then
                  emit (EvPrint ("No response candidates" +:+ LF));;
                  range_input lines'
                else
                  range_Candidates (Candidates r);;
                  range_input lines'
            end
        end
  end.

Definition main (env : Env) : M W Exit :=
  let apiKey := GEMINI_API_KEY env in
  if String.eqb apiKey "" then
    emit (EvFatal "GEMINI_API_KEY environment variable not set");;
    mret Fatal
  else
    err ← call (EvNewClient apiKey) (NewClient client apiKey);
    match err with
    | Some e => emit (EvFatal e);; mret Fatal
    | None =>
        err ← call (EvChatsCreate "gemini-1.5-flash" [])
                   (Chats_Create client "gemini-1.5-flash" []);
        match err with
        | Some e => emit (EvFatal e);; mret Fatal
        | None =>
            emit (EvPrint ("Enter your messages (type 'quit' to exit):"
                           +:+ LF));;
            range_input (stdin env);;
            match scanner_Err env with
            | Some e => emit (EvLog (LogReadInput e))
            | None => mret tt
            end;;
            mret Returned
        end
    end.

End Loop.

End main_v1.

(** ** The tools behind the interface *)

(** [*ReadManyFilesTool] has the two methods of [Tool]; its [Execute]
    leaves the world as it is. *)
Definition ReadManyFilesTool_Tool `{Platform} {W}
    (tool : ReadManyFilesTool.t) : Tool W :=
  {| Declaration := ReadManyFilesTool.Declaration tool;
     Execute := λ ctx args w, (ReadManyFilesTool.Execute tool ctx args, w) |}.

(** ** More environments for the examples *)
Module more_examples.

(** [exit 3]. *)
Definition exit3_args : gmap string any :=
  {[ "command" := AString "exit 3"; "directory" := AString "sub" ]}.

Definition exit3_run : RunShellCommandTool.Run :=
  {| RunShellCommandTool.start_err := None;
     RunShellCommandTool.Pid := 4245;
     RunShellCommandTool.selected := RunShellCommandTool.WaitDone;
     RunShellCommandTool.wait_err :=
       Some (RunShellCommandTool.ExitError "exit status 3" (Some 768));
     RunShellCommandTool.getpgid_cancelled := (4245, None);
     RunShellCommandTool.getpgid_report := (4245, None);
     RunShellCommandTool.stdout := "";
     RunShellCommandTool.stderr := "" |}.

(** The copy of the output failed: [cmd.Wait()] gives an error that is
    not an exit error. *)
Definition io_error_run : RunShellCommandTool.Run :=
  {| RunShellCommandTool.start_err := None;
     RunShellCommandTool.Pid := 4246;
     RunShellCommandTool.selected := RunShellCommandTool.WaitDone;
     RunShellCommandTool.wait_err :=
       Some (RunShellCommandTool.OtherError "io: read/write on closed pipe");
     RunShellCommandTool.getpgid_cancelled := (4246, None);
     RunShellCommandTool.getpgid_report := (4246, None);
     RunShellCommandTool.stdout := "par";
     RunShellCommandTool.stderr := "" |}.

(** [bash] cannot be started. *)
Definition no_bash_run : RunShellCommandTool.Run :=
  {| RunShellCommandTool.start_err :=
       Some "exec: bash: executable file not found in $PATH";
     RunShellCommandTool.Pid := 0;
     RunShellCommandTool.selected := RunShellCommandTool.WaitDone;
     RunShellCommandTool.wait_err := None;
     RunShellCommandTool.getpgid_cancelled := (-1, Some "no such process");
     RunShellCommandTool.getpgid_report := (-1, Some "no such process");
     RunShellCommandTool.stdout := "";
     RunShellCommandTool.stderr := "" |}.

(** A context found cancelled from its second poll on. *)
Definition cancelled_later : Context :=
  {| Done := λ k, Nat.leb 1 k; Err := "context canceled" |}.

(** A platform on which "*.txt" matches two files. *)
Definition globbing : Platform :=
  {| filepath_Join := filepath_Join (Platform := examples.platform);
     filepath_Glob := λ p,
       if String.eqb p "/proj/*.txt"
       then (["/proj/a.txt"; "/proj/logo.txt"], None)
       else ([], None);
     os_Stat := λ p,
       if String.eqb p "/proj/locked" then StatErr "permission denied" false
       else if String.eqb p "/proj/secret" then StatInfo false
       else os_Stat (Platform := examples.platform) p;
     os_ReadFile := os_ReadFile (Platform := examples.platform);
     fmt_v := fmt_v (Platform := examples.platform) |}.

(** A client that asks for the tool "ping" whatever it is sent. *)
Definition insistent {W} : main.Client W :=
  {| main.NewClient := λ _ w, (None, w);
     main.Chats_Create := λ _ _ w, (None, w);
     main.SendMessage := λ _ w,
       ((Some {| Candidates :=
                   [ {| Content_ :=
                          Some {| Parts := [call_part examples.call_ping] |}
                     |} ] |},
         None), w) |}.

(** A client that cannot be reached. *)
Definition unreachable {W} : main.Client W :=
  {| main.NewClient := λ _ w, (None, w);
     main.Chats_Create := λ _ _ w, (None, w);
     main.SendMessage := λ _ w, ((None, Some "connection refused"), w) |}.

(** A client that answers every message with the same two text parts. *)
Definition chatty {W} : main.Client W :=
  {| main.NewClient := λ _ w, (None, w);
     main.Chats_Create := λ _ _ w, (None, w);
     main.SendMessage := λ _ w,
       ((Some {| Candidates :=
                   [ {| Content_ :=
                          Some {| Parts := [text_part "Hi"; text_part "";
                                            text_part " there"] |} |} ] |},
         None), w) |}.

Definition env (lines : list string) : main.Env :=
  {| main.GEMINI_API_KEY := "key"; main.stdin := lines;
     main.scanner_Err := None |}.

(** The environment of a process started without the credential. *)
Definition no_key : main.Env :=
  {| main.GEMINI_API_KEY := ""; main.stdin := ["hello"];
     main.scanner_Err := None |}.

(** A response of three text parts, one of them empty. *)
Definition greeting : GenerateContentResponse :=
  {| Candidates :=
       [ {| Content_ :=
              Some {| Parts := [text_part "Hi"; text_part "";
                                text_part " there"] |} |} ] |}.

(** A response that asks for "ping". *)
Definition ask_ping : GenerateContentResponse :=
  {| Candidates :=
       [ {| Content_ :=
              Some {| Parts := [call_part examples.call_ping] |} |} ] |}.

(** A registry that holds the reader, and a call to it without
    arguments. *)
Definition reader_registry : gmap string (Tool unit) :=
  {[ "read_many_files" :=
       ReadManyFilesTool_Tool (H := examples.platform) examples.reader ]}.

Definition call_reader : FunctionCall :=
  {| fc_Name := "read_many_files"; fc_Args := ∅ |}.

End more_examples.

(** ** More vocabulary *)

(** The wait status of a process that exited with the code [n], and of
    one ended by the signal [s], with or without a core dump. *)
Definition exit_status (n : Z) : WaitStatus.t := Z.shiftl n 8.

Definition signal_status (s : Z) (core : bool) : WaitStatus.t :=
  if core then Z.lor s 0x80 else s.

(** The first occurrence of every element, in order. *)
Fixpoint keep_first (l : list string) : list string :=
  match l with
  | [] => []
  | x :: l' => x :: filter (λ y, y ≠ x) (keep_first l')
  end.

(** The paths one entry stands for: the matches of a pattern, or the
    joined path itself. *)
Definition resolve `{Platform} (tool : ReadManyFilesTool.t)
    (pattern : string) : list string :=
  let absPattern :=
    filepath_Join (ReadManyFilesTool.ProjectRoot tool) pattern in
  if strings_ContainsAny pattern "*?[]"
  then (filepath_Glob absPattern).1
  else [absPattern].

(** The error the first loop of the reader returns at the entry [p], if
    any. *)
Definition entry_error `{Platform} (tool : ReadManyFilesTool.t) (p : any)
  : option error :=
  match p with
  | AString pattern =>
      if strings_ContainsAny pattern "*?[]" then
        match (filepath_Glob
                 (filepath_Join (ReadManyFilesTool.ProjectRoot tool)
                                pattern)).2 with
        | Some e =>
            Some ("error globbing pattern " +:+ pattern +:+ ": " +:+ e)
        | None => None
        end
      else None
  | _ => Some ("invalid path pattern: " +:+ fmt_v p)
  end.

(** The text of the parts that carry no function call. *)
Definition model_text (parts : list Part) : string :=
  foldr (λ part rest,
           match FunctionCall_ part with
           | Some _ => rest
           | None => Text part +:+ rest
           end) "" parts.

(** The executions and the messages among some events, in order. *)
Definition executions (evs : list main.Event)
  : list (string * gmap string any) :=
  omap (λ e, match e with
             | main.EvExecute name args => Some (name, args)
             | _ => None
             end) evs.

Definition messages (evs : list main.Event) : list (list Part) :=
  omap (λ e, match e with
             | main.EvSendMessage parts => Some parts
             | _ => None
             end) evs.

Definition prints (evs : list main.Event) : list string :=
  omap (λ e, match e with
             | main.EvPrint s => Some s
             | _ => None
             end) evs.

(** The input lines before the first "quit". *)
Fixpoint before_quit (lines : list string) : list string :=
  match lines with
  | [] => []
  | input :: lines' =>
      if String.eqb input "quit" then [] else input :: before_quit lines'
  end.

(** * Properties *)

(** ** The shell-command tool *)
Section RunShellCommand.
Import RunShellCommandTool.
Context `{Platform}.

Lemma Execute_WaitDone tool ctx run args cmdStr :
  args !! "command" = Some (AString cmdStr) →
  start_err run = None →
  selected run = WaitDone →
  ∃ result evs,
    Execute tool ctx run args = ((Some result, None), evs) ∧
    result !! "Command" = Some (AString cmdStr) ∧
    result !! "Directory" =
      Some (AString (as_string (index args "directory")).1) ∧
    result !! "Stdout" = Some (AString (stdout run)) ∧
    result !! "Stderr" = Some (AString (stderr run)) ∧
    result !! "Error" = Some (AString (decode (wait_err run)).2) ∧
    result !! "Exit Code" = Some (AInt (decode (wait_err run)).1.1) ∧
    result !! "Signal" = Some (AInt (decode (wait_err run)).1.2).
Proof.
  intros Hcmd Hstart Hsel. unfold Execute, index.
  rewrite Hcmd, Hstart, Hsel. simpl.
  destruct (as_string (default ANil (args !! "directory"))) as [dir ok].
  destruct (decode (wait_err run)) as [[exitCode signal] cmdErr].
  eexists _, _. split; [reflexivity|].
  simpl. repeat split; reflexivity.
Qed.

(** A result map comes from the second case of the [select] only. *)
Lemma Execute_Some_inv tool ctx run args result :
  (Execute tool ctx run args).1.1 = Some result →
  result !! "Exit Code" = Some (AInt (decode (wait_err run)).1.1) ∧
  result !! "Signal" = Some (AInt (decode (wait_err run)).1.2) ∧
  selected run = WaitDone.
Proof.
  unfold Execute.
  destruct (as_string (index args "command")) as [cmdStr [|]];
    simpl; [|discriminate].
  destruct (as_string (index args "directory")) as [dir ok].
  destruct (start_err run); simpl; [discriminate|].
  destruct (selected run).
  - destruct (getpgid_cancelled run) as [pgid err]. simpl. discriminate.
  - destruct (decode (wait_err run)) as [[exitCode signal] cmdErr].
    simpl. intros [= <-]. repeat split; reflexivity.
Qed.

Lemma decode_signal status msg :
  let '(exitCode, signal, _) := decode (Some (ExitError msg (Some status))) in
  (signal ≠ -1 → exitCode = -1) ∧
  (WaitStatus.Exited status = true → signal = -1).
Proof.
  unfold decode, WaitStatus.ExitStatus, WaitStatus.Signal,
    WaitStatus.Signaled, WaitStatus.Exited.
  destruct (Z.eqb_spec (Z.land status WaitStatus.mask) WaitStatus.exited)
    as [He|He]; simpl.
  - rewrite andb_false_r. split; [congruence|reflexivity].
  - rewrite andb_true_r.
    destruct (Z.eqb (Z.land status WaitStatus.mask) WaitStatus.stopped);
      simpl; split; congruence.
Qed.

(** C4: when the process exits cleanly ([cmd.Wait()] returns no error,
    which is exit status 0), the call succeeds and its result map has
    "Exit Code" 0, the process's exit code, "Signal" -1 and "Error"
    "(none)", next to the captured standard output and error.  For
    [echo hello] see the instance below. *)
Theorem clean_exit_fields tool ctx run args cmdStr :
  args !! "command" = Some (AString cmdStr) →
  start_err run = None →
  selected run = WaitDone →
  wait_err run = None →
  ∃ result evs,
    Execute tool ctx run args = ((Some result, None), evs) ∧
    result !! "Exit Code" = Some (AInt 0) ∧
    result !! "Signal" = Some (AInt (-1)) ∧
    result !! "Error" = Some (AString "(none)") ∧
    result !! "Stdout" = Some (AString (stdout run)) ∧
    result !! "Stderr" = Some (AString (stderr run)).
Proof.
  intros Hcmd Hstart Hsel Hwait.
  destruct (Execute_WaitDone tool ctx run args cmdStr Hcmd Hstart Hsel)
    as (result & evs & -> & _ & _ & Hout & Herr & He & Hc & Hs).
  rewrite Hwait in He, Hc, Hs. simpl in He, Hc, Hs.
  exists result, evs. repeat split; assumption.
Qed.

(** C5: in every result map the call returns, a "Signal" other than -1
    comes with "Exit Code" -1, and a process that ended on its own has
    "Signal" -1. *)
Theorem exit_code_signal_exclusive tool ctx run args result :
  (Execute tool ctx run args).1.1 = Some result →
  (result !! "Signal" ≠ Some (AInt (-1)) →
   result !! "Exit Code" = Some (AInt (-1))) ∧
  (exited_normally (wait_err run) → result !! "Signal" = Some (AInt (-1))).
Proof.
  intros Hres.
  destruct (Execute_Some_inv _ _ _ _ _ Hres) as (-> & -> & _).
  destruct (wait_err run) as [[msg [status|]|msg]|] eqn:Hw.
  - pose proof (decode_signal status msg) as Hd.
    destruct (decode (Some (ExitError msg (Some status))))
      as [[exitCode signal] cmdErr].
    destruct Hd as [Hd1 Hd2]. simpl. split.
    + intros Hne. rewrite Hd1; [reflexivity|]. congruence.
    + intros [Hn|(msg' & status' & [= _ <-] & Hex)]; [discriminate|].
      rewrite (Hd2 Hex). reflexivity.
  - simpl. split; [congruence|reflexivity].
  - simpl. split; [congruence|reflexivity].
  - simpl. split; [congruence|reflexivity].
Qed.

(** C3, amended: when the first case of the [select] fires, the call
    looks up the process group, sends SIGTERM to the negated group id if
    that lookup succeeded, receives the result of the wait, and only then
    returns, with no result map and the context's error. *)
Theorem cancelled_outcome tool ctx run args cmdStr :
  args !! "command" = Some (AString cmdStr) →
  start_err run = None →
  selected run = CtxDone →
  Execute tool ctx run args =
    ((None, Some (Err ctx)),
     EvStart ["bash"; "-c"; cmdStr]
             (cmd_Dir tool (as_string (index args "directory")).1) true
       :: cancelled_events run).
Proof.
  intros Hcmd Hstart Hsel. unfold Execute, cancelled_events, index.
  rewrite Hcmd, Hstart, Hsel. simpl.
  destruct (as_string (default ANil (args !! "directory"))) as [dir ok].
  destruct (getpgid_cancelled run) as [pgid [e|]]; reflexivity.
Qed.

End RunShellCommand.

(** C4, [echo hello]: exit code 0, no signal, "hello\n" on standard
    output, nothing on standard error, error "(none)". *)
Lemma echo_hello_fields :
  ∃ result evs,
    RunShellCommandTool.Execute (H := examples.platform) examples.shell
      Background examples.echo_run examples.echo_args
    = ((Some result, None), evs) ∧
    result !! "Exit Code" = Some (AInt 0) ∧
    result !! "Signal" = Some (AInt (-1)) ∧
    result !! "Error" = Some (AString "(none)") ∧
    result !! "Stdout" = Some (AString ("hello" +:+ LF)) ∧
    result !! "Stderr" = Some (AString "").
Proof.
  apply (clean_exit_fields (H := examples.platform) examples.shell Background
           examples.echo_run examples.echo_args "echo hello");
    reflexivity.
Defined.

(** C5 at a shell killed by signal 9: "Signal" is 9 and "Exit Code" -1. *)
Lemma killed_by_signal_fields :
  ∃ result,
    (RunShellCommandTool.Execute (H := examples.platform) examples.shell
       Background examples.kill_run examples.kill_args).1.1 = Some result ∧
    result !! "Signal" = Some (AInt 9) ∧
    (result !! "Signal" ≠ Some (AInt (-1)) →
     result !! "Exit Code" = Some (AInt (-1))) ∧
    (exited_normally
       (RunShellCommandTool.wait_err examples.kill_run) →
     result !! "Signal" = Some (AInt (-1))).
Proof.
  eexists. split; [reflexivity|]. split; [reflexivity|].
  apply (exit_code_signal_exclusive (H := examples.platform) examples.shell
           Background examples.kill_run examples.kill_args).
  reflexivity.
Defined.

(** C3 at [sleep 60]: SIGTERM goes to the group -4244 before the wait is
    joined. *)
Lemma cancelled_sleep :
  RunShellCommandTool.Execute (H := examples.platform) examples.shell
    examples.cancelled examples.sleep_run examples.sleep_args
  = ((None, Some "context canceled"),
     [RunShellCommandTool.EvStart ["bash"; "-c"; "sleep 60"] "/proj" true;
      RunShellCommandTool.EvGoWait;
      RunShellCommandTool.EvGetpgid 4244;
      RunShellCommandTool.EvKill (-4244) 15;
      RunShellCommandTool.EvRecvDone]).
Proof.
  apply (cancelled_outcome (H := examples.platform) examples.shell
           examples.cancelled examples.sleep_run examples.sleep_args
           "sleep 60");
    reflexivity.
Defined.

(** C3 as stated fails: the context is cancelled, the first case of the
    [select] fires, but the group lookup fails and no signal is sent. *)
Lemma cancelled_without_signal :
  RunShellCommandTool.selected examples.reaped_run
  = RunShellCommandTool.CtxDone ∧
  RunShellCommandTool.Execute (H := examples.platform) examples.shell
    examples.cancelled examples.reaped_run examples.sleep_args
  = ((None, Some "context canceled"),
     [RunShellCommandTool.EvStart ["bash"; "-c"; "sleep 60"] "/proj" true;
      RunShellCommandTool.EvGoWait;
      RunShellCommandTool.EvGetpgid 4244;
      RunShellCommandTool.EvRecvDone]) ∧
  existsb is_Kill
    (RunShellCommandTool.Execute (H := examples.platform) examples.shell
       examples.cancelled examples.reaped_run examples.sleep_args).2
  = false.
Proof. repeat split. Qed.

(** C6: with no "directory" argument the "Directory" field of the result
    is the empty string, not the marker "(root)", which the description in
    the tool's own declaration announces for this case. *)
Theorem directory_unset_is_empty :
  examples.echo_args !! "directory" = None ∧
  is_Some (String.index 0 "executed, or `(root)`."
             (Description
                (RunShellCommandTool.Declaration examples.shell))) ∧
  ∃ result evs,
    RunShellCommandTool.Execute (H := examples.platform) examples.shell
      Background examples.echo_run examples.echo_args
    = ((Some result, None), evs) ∧
    result !! "Directory" = Some (AString "") ∧
    result !! "Directory" ≠ Some (AString "(root)").
Proof.
  split; [reflexivity|]. split; [vm_compute; by eexists|]. eexists _, _.
  split; [reflexivity|]. split; [reflexivity|]. discriminate.
Qed.

(** ** The multi-file reader *)
Section ReadManyFiles.
Import ReadManyFilesTool.
Context `{Platform}.
Variable tool : t.

Lemma append_assoc (a b c : string) : (a +:+ b) +:+ c = a +:+ b +:+ c.
Proof.
  induction a as [|x a IH]; [reflexivity|].
  change (String x ((a +:+ b) +:+ c) = String x (a +:+ b +:+ c)).
  by rewrite IH.
Qed.

Lemma foldl_append (f : string → string) (l : list string) (acc : string) :
  foldl (λ content x, content +:+ f x) acc l
  = acc +:+ foldl (λ content x, content +:+ f x) "" l.
Proof.
  revert acc. induction l as [|x l IH]; intros acc; simpl.
  - induction acc as [|c acc IHacc]; [reflexivity|].
    change (String c acc = String c (acc +:+ "")). by rewrite <- IHacc.
  - rewrite IH. rewrite (IH ("" +:+ f x)). by rewrite append_assoc.
Qed.

Lemma written_split (l1 l2 : list string) (x : string) :
  written (l1 ++ x :: l2) = written l1 +:+ write_file x +:+ written l2.
Proof.
  unfold written. rewrite foldl_app. simpl.
  rewrite foldl_append. by rewrite append_assoc.
Qed.

Lemma range_paths_expands paths :
  Forall (expands tool) paths →
  ∀ filePaths, ∃ filePaths', range_paths tool paths filePaths = (filePaths', None).
Proof.
  induction 1 as [|p paths (pattern & -> & Hglob) _ IH]; intros filePaths.
  - by eexists.
  - simpl. destruct (strings_ContainsAny pattern "*?[]"); [|apply IH].
    specialize (Hglob eq_refl).
    destruct (filepath_Glob _) as [matches err]. simpl in Hglob.
    subst err. apply IH.
Qed.

Lemma range_uniqueFilePaths_live ctx :
  (∀ k, Done ctx k = false) →
  ∀ files polls content,
    range_uniqueFilePaths ctx files polls content
    = (foldl (λ content filePath, content +:+ write_file filePath)
             content files, None).
Proof.
  intros Hlive. induction files as [|f files IH]; intros polls content.
  - reflexivity.
  - simpl. rewrite Hlive. apply IH.
Qed.

Lemma Execute_live ctx args paths filePaths :
  args !! "paths" = Some (ASlice paths) →
  range_paths tool paths [] = (filePaths, None) →
  (∀ k, Done ctx k = false) →
  Execute tool ctx args
  = (Some {[ "content" := AString (written (range_filePaths filePaths ∅ [])) ]},
     None).
Proof.
  intros Hargs Hpaths Hlive. unfold Execute, index.
  rewrite Hargs. simpl. rewrite Hpaths.
  by rewrite (range_uniqueFilePaths_live ctx Hlive).
Qed.

(** The second loop keeps what it had and every path not seen before. *)
Lemma range_filePaths_elem p filePaths :
  ∀ seen unique,
    p ∈ unique ∨ (p ∈ filePaths ∧ seen !! p ≠ Some true) →
    p ∈ range_filePaths filePaths seen unique.
Proof.
  induction filePaths as [|q filePaths IH]; intros seen unique Hp; simpl.
  - destruct Hp as [Hp|[Hp _]]; [done|]. by apply elem_of_nil in Hp.
  - destruct (decide (seen !! q = Some true)) as [Hq|Hq].
    + rewrite Hq. simpl. apply IH.
      destruct Hp as [Hp|[Hp Hs]]; [by left|].
      apply elem_of_cons in Hp as [->|Hp]; [congruence|]. by right.
    + assert (negb (default false (seen !! q)) = true) as ->.
      { destruct (seen !! q) as [[|]|]; done. }
      apply IH. destruct (decide (p = q)) as [->|Hne].
      * left. apply elem_of_app. right. by apply list_elem_of_singleton.
      * destruct Hp as [Hp|[Hp Hs]].
        -- left. apply elem_of_app. by left.
        -- right. rewrite lookup_insert_ne by done.
           apply elem_of_cons in Hp as [->|Hp]; done.
Qed.

Lemma bytes_ContainsRune_In (data : string) (r : ascii) :
  bytes_ContainsRune data r = true ↔ In r (list_ascii_of_string data).
Proof.
  unfold bytes_ContainsRune. induction data as [|c data IH]; simpl.
  - split; [discriminate|tauto].
  - rewrite orb_true_iff, IH, Ascii.eqb_eq. tauto.
Qed.

(** C7, amended: when every entry of "paths" is a string whose
    expansion, if it is a pattern, gives no error, and the context is
    never found cancelled, the call returns no error: its result is one
    "content" string, the concatenation over the distinct resolved paths
    of what [write_file] writes for each, a marker line or the file's
    text. *)
Theorem Execute_degrades ctx args paths :
  args !! "paths" = Some (ASlice paths) →
  Forall (expands tool) paths →
  (∀ k, Done ctx k = false) →
  ∃ filePaths,
    range_paths tool paths [] = (filePaths, None) ∧
    Execute tool ctx args
    = (Some {[ "content" :=
                 AString (written (range_filePaths filePaths ∅ [])) ]},
       None).
Proof.
  intros Hargs Hexp Hlive.
  destruct (range_paths_expands paths Hexp []) as [filePaths Hpaths].
  exists filePaths. split; [done|]. by apply (Execute_live ctx args paths).
Qed.

End ReadManyFiles.

(** C7 at a request for a text file, a missing file, a directory, the
    text file again and a file with a null byte. *)
Lemma mixed_request_degrades :
  ∃ filePaths,
    ReadManyFilesTool.range_paths (H := examples.platform) examples.reader
      [AString "a.txt"; AString "missing.txt"; AString "docs";
       AString "a.txt"; AString "logo.txt"] []
    = (filePaths, None) ∧
    ReadManyFilesTool.Execute (H := examples.platform) examples.reader
      Background examples.mixed_args
    = (Some {[ "content" :=
                 AString (written (H := examples.platform)
                            (ReadManyFilesTool.range_filePaths
                               filePaths ∅ [])) ]},
       None).
Proof.
  apply (Execute_degrades (H := examples.platform) examples.reader Background
           examples.mixed_args).
  - reflexivity.
  - repeat constructor; eexists; (split; [reflexivity|discriminate]).
  - reflexivity.
Defined.

(** The content of that request: one block of text and three marker
    lines, the repeated path read once. *)
Example mixed_request_content :
  ReadManyFilesTool.Execute (H := examples.platform) examples.reader
    Background examples.mixed_args
  = (Some {[ "content" :=
               AString ("---/proj/a.txt --- alpha" +:+ LF +:+
                        "---/proj/missing.txt (Not Found)---" +:+ LF +:+
                        "---/proj/docs (Directory)---" +:+ LF +:+
                        "---/proj/logo.txt (Binary File, content not included)---"
                        +:+ LF) ]},
     None).
Proof. reflexivity. Qed.

(** C7 as stated fails: "paths" is an array, the context is never
    cancelled, and the call returns an error, for an entry that is not a
    string and for a pattern [filepath.Glob] refuses. *)
Lemma array_paths_can_fail :
  as_slice (index {[ "paths" := ASlice [AInt 42] ]} "paths")
  = ([AInt 42], true) ∧
  ReadManyFilesTool.Execute (H := examples.platform) examples.reader
    Background {[ "paths" := ASlice [AInt 42] ]}
  = (None, Some "invalid path pattern: 42") ∧
  ReadManyFilesTool.Execute (H := examples.strict_glob) examples.reader
    Background {[ "paths" := ASlice [AString "["] ]}
  = (None, Some "error globbing pattern [: syntax error in pattern").
Proof. repeat split. Qed.

(** ** The tool-call loop *)
Section Emits.
Import main.
Context {W : Type} (P : Event → Prop).

Lemma emits_ret {A} (a : A) : emits P (mret a : M W A).
Proof. intros w. constructor. Qed.

Lemma emits_bind {A B} (m : M W A) (f : A → M W B) :
  emits P m → (∀ a, emits P (f a)) → emits P (m ≫= f).
Proof.
  intros Hm Hf w. unfold mbind, M_bind.
  specialize (Hm w). destruct (m w) as [[a w1] e1].
  specialize (Hf a w1). destruct (f a w1) as [[b w2] e2].
  simpl in *. by apply Forall_app.
Qed.

Lemma emits_emit (e : Event) : P e → emits P (emit e : M W unit).
Proof. intros He w. by repeat constructor. Qed.

Lemma emits_call {A} (e : Event) (f : W → A * W) :
  P e → emits P (call e f).
Proof.
  intros He w. unfold call. destruct (f w) as [a w'].
  by repeat constructor.
Qed.

End Emits.

Section ToolCallLoop.
Import main.
Context {W : Type}.
Variable registry : gmap string (Tool W).
Variable client : Client W.
Variable ctx : Context.

Lemma dispatch_unknown c w :
  registry !! fc_Name c = None →
  dispatch registry ctx c w
  = ((None, Some ("unknown tool: " +:+ fc_Name c)), w, []).
Proof. intros Hc. unfold dispatch. by rewrite Hc. Qed.

Lemma range_Parts_body_unknown c part toolResponses modelTextResponse w :
  registry !! fc_Name c = None →
  FunctionCall_ part = Some c →
  range_Parts_body registry ctx (toolResponses, modelTextResponse) part w
  = ((toolResponses
        ++ [error_response c ("unknown tool: " +:+ fc_Name c)],
      modelTextResponse), w,
     [EvLog (LogCalled (fc_Name c) (fc_Args c));
      EvLog (LogToolError (fc_Name c) ("unknown tool: " +:+ fc_Name c))]).
Proof.
  intros Hc Hpart. unfold range_Parts_body. rewrite Hpart.
  unfold mbind, M_bind. simpl. by rewrite (dispatch_unknown c w Hc).
Qed.

Lemma range_Parts_body_spec toolResponses modelTextResponse part w :
  ∃ rs text w' evs,
    range_Parts_body registry ctx (toolResponses, modelTextResponse) part w
    = ((toolResponses ++ rs, text), w', evs) ∧
    Forall2 answers (function_calls [part]) rs ∧
    Forall quiet evs.
Proof.
  unfold range_Parts_body, function_calls. simpl.
  destruct (FunctionCall_ part) as [c|]; simpl.
  - unfold mbind, M_bind, dispatch, call. simpl.
    destruct (registry !! fc_Name c) as [tool|]; simpl.
    + destruct (Execute tool ctx (fc_Args c) w) as [[res [e|]] w'];
        simpl; eexists [_], _, _, _;
        (split; [reflexivity|]); split;
        try (repeat constructor; by eexists); by repeat constructor.
    + eexists [_], _, _, _. split; [reflexivity|]. split.
      * repeat constructor. by eexists.
      * by repeat constructor.
  - exists [].
    destruct (negb (String.eqb (Text part) "")); simpl;
      eexists _, _, _; rewrite app_nil_r;
      (split; [reflexivity|]); split; constructor.
Qed.

Lemma range_Parts_spec parts :
  ∀ toolResponses modelTextResponse w,
  ∃ rs text w' evs,
    range_Parts registry ctx parts (toolResponses, modelTextResponse) w
    = ((toolResponses ++ rs, text), w', evs) ∧
    Forall2 answers (function_calls parts) rs ∧
    Forall quiet evs.
Proof.
  induction parts as [|part parts IH]; intros toolResponses text w.
  - exists [], text, w, []. rewrite app_nil_r.
    split; [reflexivity|]. split; constructor.
  - cbn [range_Parts]. unfold mbind, M_bind.
    destruct (range_Parts_body_spec toolResponses text part w)
      as (rs1 & text1 & w1 & evs1 & -> & Hrs1 & Hevs1).
    destruct (IH (toolResponses ++ rs1) text1 w1)
      as (rs2 & text2 & w2 & evs2 & -> & Hrs2 & Hevs2).
    exists (rs1 ++ rs2), text2, w2, (evs1 ++ evs2).
    rewrite app_assoc. split; [reflexivity|]. split.
    + change (function_calls (part :: parts))
        with (function_calls ([part] ++ parts)).
      unfold function_calls in *. rewrite omap_app.
      by apply Forall2_app.
    + by apply Forall_app.
Qed.

Lemma range_Parts_app parts1 parts2 :
  ∀ acc w,
    range_Parts registry ctx (parts1 ++ parts2) acc w
    = (range_Parts registry ctx parts1 acc
         ≫= range_Parts registry ctx parts2) w.
Proof.
  induction parts1 as [|part parts1 IH]; intros acc w;
    cbn [app range_Parts].
  - unfold mbind, M_bind, mret, M_ret.
    by destruct (range_Parts registry ctx parts2 acc w) as [[b w2] e2].
  - unfold mbind, M_bind in *.
    destruct (range_Parts_body registry ctx acc part w) as [[acc1 w1] e1].
    rewrite IH.
    destruct (range_Parts registry ctx parts1 acc1 w1) as [[acc2 w2] e2].
    destruct (range_Parts registry ctx parts2 acc2 w2) as [[acc3 w3] e3].
    by rewrite app_assoc.
Qed.

Lemma range_Candidates_flat cands :
  ∀ acc w,
    range_Candidates registry ctx cands acc w
    = range_Parts registry ctx (all_parts cands) acc w.
Proof.
  induction cands as [|cand cands IH]; intros acc w; simpl.
  - reflexivity.
  - destruct (Content_ cand) as [content|]; simpl.
    + rewrite range_Parts_app. unfold mbind, M_bind.
      destruct (range_Parts registry ctx (Parts content) acc w)
        as [[acc1 w1] e1].
      by rewrite IH.
    + apply IH.
Qed.

(** C8, amended: the loop goes through the parts of every candidate that
    has a content, in the order of the candidates: its tool responses,
    its text, its effects and its events are those of one pass over all
    these parts. *)
Theorem every_candidate_is_processed cands acc w :
  range_Candidates registry ctx cands acc w
  = range_Parts registry ctx (all_parts cands) acc w.
Proof. apply range_Candidates_flat. Qed.

(** C1: a call whose name is not in the registry runs no tool: the
    dispatch changes nothing in the world and emits no event, and its
    error reads "unknown tool: <name>"; the part that carries the call
    adds to the tool responses the response, under that name, whose
    "error" field is this text; and the loop goes on with the parts that
    follow. *)
Theorem unknown_tool_yields_error c part parts toolResponses text w :
  registry !! fc_Name c = None →
  FunctionCall_ part = Some c →
  dispatch registry ctx c w
  = ((None, Some ("unknown tool: " +:+ fc_Name c)), w, []) ∧
  range_Parts_body registry ctx (toolResponses, text) part w
  = ((toolResponses
        ++ [error_response c ("unknown tool: " +:+ fc_Name c)], text),
     w,
     [EvLog (LogCalled (fc_Name c) (fc_Args c));
      EvLog (LogToolError (fc_Name c) ("unknown tool: " +:+ fc_Name c))]) ∧
  range_Parts registry ctx (part :: parts) (toolResponses, text) w
  = let '(acc, w', evs) :=
      range_Parts registry ctx parts
        (toolResponses
           ++ [error_response c ("unknown tool: " +:+ fc_Name c)], text)
        w in
    (acc, w',
     [EvLog (LogCalled (fc_Name c) (fc_Args c));
      EvLog (LogToolError (fc_Name c) ("unknown tool: " +:+ fc_Name c))]
       ++ evs).
Proof.
  intros Hc Hpart. split; [by apply dispatch_unknown|].
  split; [by apply range_Parts_body_unknown|].
  cbn [range_Parts]. unfold mbind, M_bind.
  by rewrite (range_Parts_body_unknown c part toolResponses text w Hc Hpart).
Qed.

(** C2: when the parts of a response hold n >= 1 function calls, one
    turn of the loop builds exactly n tool responses, the i-th a pure
    function response under the name of the i-th call, while emitting
    only log lines and tool executions; it then sends these n parts, and
    nothing else, in one message to the model, which is its only message
    and its last act but for the log line of a failed send. *)
Theorem tool_responses_batch r w :
  function_calls (all_parts (Candidates r)) ≠ [] →
  ∃ toolResponses evs w1,
    Forall2 answers (function_calls (all_parts (Candidates r)))
            toolResponses ∧
    List.length toolResponses
    = List.length (function_calls (all_parts (Candidates r))) ∧
    Forall quiet evs ∧
    toolCallLoop_body registry client ctx (Some r) w
    = let '((resp', sendErr), w2) :=
        SendMessage client toolResponses w1 in
      match sendErr with
      | Some e =>
          (Break, w2,
           evs ++ [EvSendMessage toolResponses;
                   EvLog (LogSendToolResponses e)])
      | None => (Next resp', w2, evs ++ [EvSendMessage toolResponses])
      end.
Proof.
  intros Hcalls. unfold toolCallLoop_body.
  destruct (Candidates r) as [|cand cands] eqn:Hcands; [done|].
  cbn [List.length Nat.eqb]. unfold mbind, M_bind.
  rewrite range_Candidates_flat.
  destruct (range_Parts_spec (all_parts (cand :: cands)) [] "" w)
    as (rs & text & w1 & evs & -> & Hrs & Hevs).
  exists rs, evs, w1. split; [done|].
  pose proof (Forall2_length _ _ _ Hrs) as Hlen.
  split; [done|]. split; [done|].
  cbn [app]. destruct rs as [|r1 rs].
  { destruct (function_calls (all_parts (cand :: cands))); done. }
  cbn [List.length Nat.ltb Nat.leb]. unfold call.
  destruct (SendMessage client (r1 :: rs) w1) as [[resp' [e|]] w2];
    reflexivity.
Qed.

End ToolCallLoop.

(** C1 at the call of the unregistered name "nope", with "ping"
    registered. *)
Lemma nope_is_unknown :
  main.dispatch examples.registry Background examples.call_nope 0%nat
  = ((None, Some "unknown tool: nope"), 0%nat, []) ∧
  main.range_Parts_body examples.registry Background ([], "")
    (call_part examples.call_nope) 0%nat
  = (([] ++ [error_response examples.call_nope "unknown tool: nope"], ""),
     0%nat,
     [main.EvLog (main.LogCalled "nope" {[ "x" := AInt 1 ]});
      main.EvLog (main.LogToolError "nope" "unknown tool: nope")]) ∧
  main.range_Parts examples.registry Background
    [call_part examples.call_nope; call_part examples.call_ping] ([], "")
    0%nat
  = let '(acc, w', evs) :=
      main.range_Parts examples.registry Background
        [call_part examples.call_ping]
        ([] ++ [error_response examples.call_nope "unknown tool: nope"], "")
        0%nat in
    (acc, w',
     [main.EvLog (main.LogCalled "nope" {[ "x" := AInt 1 ]});
      main.EvLog (main.LogToolError "nope" "unknown tool: nope")] ++ evs).
Proof.
  apply (unknown_tool_yields_error examples.registry Background
           examples.call_nope (call_part examples.call_nope)
           [call_part examples.call_ping] [] "" 0%nat);
    reflexivity.
Defined.

(** C2 at a response with a text and two calls: two responses, for "ping"
    and for "nope" in this order, sent in one message. *)
Lemma two_calls_batch :
  ∃ toolResponses evs w1,
    Forall2 answers [examples.call_ping; examples.call_nope] toolResponses ∧
    List.length toolResponses = 2%nat ∧
    Forall quiet evs ∧
    main.toolCallLoop_body examples.registry examples.silent Background
      (Some examples.two_calls) 0%nat
    = let '((resp', sendErr), w2) :=
        main.SendMessage examples.silent toolResponses w1 in
      match sendErr with
      | Some e =>
          (main.Break, w2,
           evs ++ [main.EvSendMessage toolResponses;
                   main.EvLog (main.LogSendToolResponses e)])
      | None =>
          (main.Next resp', w2, evs ++ [main.EvSendMessage toolResponses])
      end.
Proof.
  apply (tool_responses_batch examples.registry examples.silent Background
           examples.two_calls 0%nat).
  discriminate.
Defined.

(** The turn of that witness, computed. *)
Example two_calls_turn :
  main.toolCallLoop_body examples.registry examples.silent Background
    (Some examples.two_calls) 0%nat
  = (main.Next None, 1%nat,
     [main.EvLog (main.LogCalled "ping" ∅);
      main.EvExecute "ping" ∅;
      main.EvLog (main.LogCalled "nope" {[ "x" := AInt 1 ]});
      main.EvLog (main.LogToolError "nope" "unknown tool: nope");
      main.EvSendMessage
        [response_part
           {| fr_Name := "ping";
              fr_Response := Some {[ "pong" := AInt 0 ]} |};
         error_response examples.call_nope "unknown tool: nope"]]).
Proof. reflexivity. Qed.

(** C8 as stated fails: the call and the text of a second candidate are
    dispatched and accumulated like those of the first. *)
Lemma second_candidate_counts :
  main.range_Candidates (main.toolRegistry (W := unit)) Background
    [examples.first_candidate; examples.second_candidate] ([], "") tt
  = (([error_response examples.call_nope "unknown tool: nope"],
      "Hello world"), tt,
     [main.EvLog (main.LogCalled "nope" {[ "x" := AInt 1 ]});
      main.EvLog (main.LogToolError "nope" "unknown tool: nope")]) ∧
  main.range_Candidates (main.toolRegistry (W := unit)) Background
    [examples.first_candidate] ([], "") tt
  = (([], "Hello"), tt, []) ∧
  main.range_Candidates (main.toolRegistry (W := unit)) Background
    [examples.first_candidate; examples.second_candidate] ([], "") tt
  ≠ main.range_Candidates (main.toolRegistry (W := unit)) Background
      [examples.first_candidate] ([], "") tt.
Proof. repeat split. discriminate. Qed.

(** ** The program *)
Section Toolless.
Import main.
Context {W : Type}.
Variable client : Client W.
Variable ctx : Context.

Lemma dispatch_toolRegistry c w :
  dispatch (W := W) toolRegistry ctx c w
  = ((None, Some ("unknown tool: " +:+ fc_Name c)), w, []).
Proof. apply dispatch_unknown. apply lookup_empty. Qed.

Lemma range_Parts_body_toolless acc part :
  emits toolless (range_Parts_body (W := W) toolRegistry ctx acc part).
Proof.
  intros w. destruct acc as [toolResponses text].
  destruct (FunctionCall_ part) as [c|] eqn:Hpart.
  - rewrite (range_Parts_body_unknown toolRegistry ctx c part);
      [|apply lookup_empty|done].
    by repeat constructor.
  - unfold range_Parts_body. rewrite Hpart.
    destruct (negb (String.eqb (Text part) "")); constructor.
Qed.

Lemma range_Parts_toolless parts :
  ∀ acc, emits toolless (range_Parts (W := W) toolRegistry ctx parts acc).
Proof.
  induction parts as [|part parts IH]; intros acc; cbn [range_Parts].
  - apply emits_ret.
  - apply emits_bind; [apply range_Parts_body_toolless|apply IH].
Qed.

Lemma range_Candidates_toolless cands acc :
  emits toolless (range_Candidates (W := W) toolRegistry ctx cands acc).
Proof.
  intros w. rewrite range_Candidates_flat. apply range_Parts_toolless.
Qed.

Lemma toolCallLoop_body_toolless resp :
  emits toolless (toolCallLoop_body toolRegistry client ctx resp).
Proof.
  unfold toolCallLoop_body. destruct resp as [r|].
  - destruct (Nat.eqb _ 0).
    + apply emits_bind; [by apply emits_emit|intros; apply emits_ret].
    + apply emits_bind; [apply range_Candidates_toolless|].
      intros [toolResponses text].
      destruct (Nat.ltb 0 _).
      * apply emits_bind; [by apply emits_call|].
        intros [resp' [e|]]; [|apply emits_ret].
        apply emits_bind; [by apply emits_emit|intros; apply emits_ret].
      * apply emits_bind; [|intros; apply emits_ret].
        destruct (negb _); [by apply emits_emit|apply emits_ret].
  - apply emits_bind; [by apply emits_emit|intros; apply emits_ret].
Qed.

Lemma toolCallLoop_toolless fuel :
  ∀ resp, emits toolless (toolCallLoop toolRegistry client ctx fuel resp).
Proof.
  induction fuel as [|fuel IH]; intros resp; cbn [toolCallLoop].
  - apply emits_ret.
  - apply emits_bind; [apply toolCallLoop_body_toolless|].
    intros [|resp']; [apply emits_ret|apply IH].
Qed.

Lemma range_input_toolless fuel lines :
  emits toolless (range_input toolRegistry client ctx fuel lines).
Proof.
  induction lines as [|input lines IH]; cbn [range_input].
  - apply emits_bind; [by apply emits_emit|intros; apply emits_ret].
  - apply emits_bind; [by apply emits_emit|intros _].
    destruct (String.eqb input "quit"); [apply emits_ret|].
    apply emits_bind; [by apply emits_call|].
    intros [resp [e|]].
    + apply emits_bind; [by apply emits_emit|intros; apply IH].
    + apply emits_bind; [apply toolCallLoop_toolless|].
      intros [|]; [apply IH|apply emits_ret].
Qed.

Lemma main_toolless env fuel : emits toolless (main client env fuel).
Proof.
  unfold main. destruct (String.eqb _ "").
  { apply emits_bind; [by apply emits_emit|intros; apply emits_ret]. }
  apply emits_bind; [by apply emits_call|].
  intros [e|].
  { apply emits_bind; [by apply emits_emit|intros; apply emits_ret]. }
  apply emits_bind; [by apply emits_call|].
  intros [e|].
  { apply emits_bind; [by apply emits_emit|intros; apply emits_ret]. }
  apply emits_bind; [by apply emits_emit|intros _].
  apply emits_bind; [apply range_input_toolless|].
  intros [|]; [|apply emits_ret].
  apply emits_bind; [|intros; apply emits_ret].
  destruct (scanner_Err env); [by apply emits_emit|apply emits_ret].
Qed.

(** C10: the registry [main] builds is empty, so are the function
    declarations and the tools handed to the model client; every call is
    dispatched to the unknown-tool error without a tool being run; and
    in every run of [main], whatever the client answers and however long
    the run is followed, no tool is executed and the chat is created
    without tools. *)
Theorem toolRegistry_is_empty :
  toolRegistry (W := W) = ∅ ∧
  functionDeclarations (W := W) = [] ∧
  genaiTools (W := W) = [] ∧
  (∀ c w,
     dispatch (W := W) toolRegistry ctx c w
     = ((None, Some ("unknown tool: " +:+ fc_Name c)), w, [])) ∧
  (∀ env fuel w, Forall toolless (main client env fuel w).2).
Proof.
  split; [reflexivity|]. split; [reflexivity|]. split; [reflexivity|].
  split; [apply dispatch_toolRegistry|].
  intros env fuel. apply main_toolless.
Qed.

End Toolless.

(** * Further properties *)

(** ** The shell-command tool: arguments and start *)
Section RunShellCommandMore.
Import RunShellCommandTool.
Context `{Platform}.

Lemma land_mask_small (s : Z) :
  0 ≤ s < 128 → Z.land s WaitStatus.mask = s.
Proof.
  intros Hs. change WaitStatus.mask with (Z.ones 7).
  rewrite Z.land_ones by lia. apply Z.mod_small. lia.
Qed.

Lemma land_mask_exit_status (n : Z) :
  Z.land (exit_status n) WaitStatus.mask = 0.
Proof.
  unfold exit_status. change WaitStatus.mask with (Z.ones 7).
  rewrite Z.land_ones by lia. rewrite Z.shiftl_mul_pow2 by lia.
  change (2 ^ 8) with (2 * 2 ^ 7). rewrite Z.mul_assoc.
  apply Z.mod_mul. lia.
Qed.

Lemma land_mask_signal_status (s : Z) (core : bool) :
  0 ≤ s < 128 → Z.land (signal_status s core) WaitStatus.mask = s.
Proof.
  intros Hs. unfold signal_status. destruct core.
  - rewrite Z.land_lor_distr_l. rewrite land_mask_small by done.
    change (Z.land 128 WaitStatus.mask) with 0. apply Z.lor_0_r.
  - by apply land_mask_small.
Qed.

Lemma decode_exit_status msg n :
  0 ≤ n < 256 →
  decode (Some (ExitError msg (Some (exit_status n)))) = (n, -1, msg).
Proof.
  intros Hn.
  unfold decode, WaitStatus.ExitStatus, WaitStatus.Signaled,
    WaitStatus.Exited.
  rewrite land_mask_exit_status. simpl.
  unfold exit_status, WaitStatus.shift.
  rewrite Z.shiftr_shiftl_l by lia. rewrite Z.sub_diag, Z.shiftl_0_r.
  change 255 with (Z.ones 8). rewrite Z.land_ones by lia.
  rewrite Z.mod_small by lia. reflexivity.
Qed.

Lemma decode_signal_status msg s core :
  1 ≤ s < 127 →
  decode (Some (ExitError msg (Some (signal_status s core)))) = (-1, s, msg).
Proof.
  intros Hs.
  unfold decode, WaitStatus.ExitStatus, WaitStatus.Signal,
    WaitStatus.Signaled, WaitStatus.Exited.
  rewrite land_mask_signal_status by lia.
  unfold WaitStatus.stopped, WaitStatus.exited.
  destruct (Z.eqb_spec s 127) as [?|_]; [lia|].
  destruct (Z.eqb_spec s 0) as [?|_]; [lia|]. reflexivity.
Qed.

(** X1: without a "command" that is a string, the call fails with the
    text "missing or invalid 'command' argument" and nothing is started:
    the run outside is not looked at and no event is emitted. *)
Theorem command_is_required tool ctx run args :
  (∀ cmdStr, args !! "command" ≠ Some (AString cmdStr)) →
  Execute tool ctx run args
  = ((None, Some "missing or invalid 'command' argument"), []).
Proof.
  intros Hcmd. unfold Execute, index.
  destruct (args !! "command") as [[| | |cmdStr| |]|] eqn:E;
    try reflexivity.
  by destruct (Hcmd cmdStr).
Qed.

(** X2: when the process cannot be started the call fails with the text
    "failed to start command: " followed by the error of the start; the
    start is the only thing attempted: no wait, no group lookup, no
    signal. *)
Theorem start_failure_is_reported tool ctx run args cmdStr e :
  args !! "command" = Some (AString cmdStr) →
  start_err run = Some e →
  Execute tool ctx run args
  = ((None, Some ("failed to start command: " +:+ e)),
     [EvStart ["bash"; "-c"; cmdStr]
              (cmd_Dir tool (as_string (index args "directory")).1) true]).
Proof.
  intros Hcmd Hstart. unfold Execute, index. rewrite Hcmd, Hstart. simpl.
  by destruct (as_string (default ANil (args !! "directory"))) as [dir ok].
Qed.

Lemma Execute_starts tool ctx run args cmdStr :
  args !! "command" = Some (AString cmdStr) →
  ∃ rest,
    (Execute tool ctx run args).2
    = EvStart ["bash"; "-c"; cmdStr]
              (cmd_Dir tool (as_string (index args "directory")).1) true
        :: rest.
Proof.
  intros Hcmd. unfold Execute, index. rewrite Hcmd. simpl.
  destruct (as_string (default ANil (args !! "directory"))) as [dir ok].
  destruct (start_err run); [by eexists|].
  destruct (selected run).
  - destruct (getpgid_cancelled run) as [pgid err]. by eexists.
  - destruct (decode (wait_err run)) as [[exitCode signal] cmdErr].
    by eexists.
Qed.

(** X3: the command runs as [bash -c <command>] in a process group of its
    own, in the project root joined with "directory" when that argument
    is a non-empty string, and in the project root itself when it is
    absent, empty or not a string. *)
Theorem working_directory tool ctx run args cmdStr :
  args !! "command" = Some (AString cmdStr) →
  ∃ dir rest,
    (Execute tool ctx run args).2
    = EvStart ["bash"; "-c"; cmdStr] dir true :: rest ∧
    (∀ d, args !! "directory" = Some (AString d) → d ≠ "" →
          dir = filepath_Join (ProjectRoot tool) d) ∧
    ((∀ d, args !! "directory" = Some (AString d) → d = "") →
     dir = ProjectRoot tool).
Proof.
  intros Hcmd.
  destruct (Execute_starts tool ctx run args cmdStr Hcmd) as [rest Hrest].
  eexists _, rest. split; [exact Hrest|].
  unfold cmd_Dir, index. split.
  - intros d Hd Hne. rewrite Hd. simpl.
    by apply String.eqb_neq in Hne as ->.
  - intros Hd.
    destruct (args !! "directory") as [[| | |d| |]|] eqn:Ed;
      try reflexivity.
    simpl. by rewrite (Hd d eq_refl).
Qed.

(** X4: a process that exits with the code n, 0 <= n < 256, gives a
    result whose "Exit Code" is n, whose "Signal" is -1 and whose "Error"
    is the text of the exit error. *)
Theorem exit_code_is_reported tool ctx run args cmdStr msg n :
  args !! "command" = Some (AString cmdStr) →
  start_err run = None →
  selected run = WaitDone →
  wait_err run = Some (ExitError msg (Some (exit_status n))) →
  0 ≤ n < 256 →
  ∃ result evs,
    Execute tool ctx run args = ((Some result, None), evs) ∧
    result !! "Exit Code" = Some (AInt n) ∧
    result !! "Signal" = Some (AInt (-1)) ∧
    result !! "Error" = Some (AString msg).
Proof.
  intros Hcmd Hstart Hsel Hwait Hn.
  destruct (Execute_WaitDone tool ctx run args cmdStr Hcmd Hstart Hsel)
    as (result & evs & -> & _ & _ & _ & _ & He & Hc & Hs).
  rewrite Hwait, decode_exit_status in He, Hc, Hs by done.
  by exists result, evs.
Qed.

(** X5: a process ended by the signal s, 1 <= s < 127, with or without
    a core dump, gives a result whose "Signal" is s, whose "Exit Code" is
    -1 and whose "Error" is the text of the exit error. *)
Theorem signal_is_reported tool ctx run args cmdStr msg s core :
  args !! "command" = Some (AString cmdStr) →
  start_err run = None →
  selected run = WaitDone →
  wait_err run = Some (ExitError msg (Some (signal_status s core))) →
  1 ≤ s < 127 →
  ∃ result evs,
    Execute tool ctx run args = ((Some result, None), evs) ∧
    result !! "Exit Code" = Some (AInt (-1)) ∧
    result !! "Signal" = Some (AInt s) ∧
    result !! "Error" = Some (AString msg).
Proof.
  intros Hcmd Hstart Hsel Hwait Hs.
  destruct (Execute_WaitDone tool ctx run args cmdStr Hcmd Hstart Hsel)
    as (result & evs & -> & _ & _ & _ & _ & He & Hc & Hsig).
  rewrite Hwait, decode_signal_status in He, Hc, Hsig by done.
  by exists result, evs.
Qed.

(** X6: when the wait fails with an error that is not an exit error, the
    call still succeeds: the result has "Exit Code" -1, "Signal" -1, the
    text of that error as "Error", and the output captured so far. *)
Theorem wait_error_is_reported tool ctx run args cmdStr msg :
  args !! "command" = Some (AString cmdStr) →
  start_err run = None →
  selected run = WaitDone →
  wait_err run = Some (OtherError msg) →
  ∃ result evs,
    Execute tool ctx run args = ((Some result, None), evs) ∧
    result !! "Exit Code" = Some (AInt (-1)) ∧
    result !! "Signal" = Some (AInt (-1)) ∧
    result !! "Error" = Some (AString msg) ∧
    result !! "Stdout" = Some (AString (stdout run)) ∧
    result !! "Stderr" = Some (AString (stderr run)).
Proof.
  intros Hcmd Hstart Hsel Hwait.
  destruct (Execute_WaitDone tool ctx run args cmdStr Hcmd Hstart Hsel)
    as (result & evs & -> & _ & _ & Hout & Herr & He & Hc & Hsig).
  rewrite Hwait in He, Hc, Hsig. by exists result, evs.
Qed.

End RunShellCommandMore.

Section RunShellCommandShape.
Import RunShellCommandTool.
Context `{Platform}.

(** X7: a result map always has the same nine fields; "Command" is the
    command as given, "Background PIDs" is the empty list, and "Process
    Group PGID" is the group found after the wait, or -1 when the lookup
    fails. *)
Theorem result_has_nine_fields tool ctx run args result :
  (Execute tool ctx run args).1.1 = Some result →
  dom result
  = list_to_set ["Command"; "Directory"; "Stdout"; "Stderr"; "Error";
                 "Exit Code"; "Signal"; "Background PIDs";
                 "Process Group PGID"] ∧
  result !! "Command" = args !! "command" ∧
  result !! "Background PIDs" = Some (ASlice []) ∧
  result !! "Process Group PGID"
  = Some (AInt match getpgid_report run with
               | (p, None) => p
               | (_, Some _) => -1
               end).
Proof.
  unfold Execute, index.
  destruct (args !! "command") as [[| | |cmdStr| |]|] eqn:Hcmd;
    simpl; try discriminate.
  destruct (as_string (default ANil (args !! "directory"))) as [dir ok].
  destruct (start_err run); simpl; [discriminate|].
  destruct (selected run).
  - destruct (getpgid_cancelled run) as [pgid err]. simpl. discriminate.
  - destruct (decode (wait_err run)) as [[exitCode signal] cmdErr].
    simpl. intros [= <-]. repeat split; reflexivity.
Qed.

(** X8: once a process is started, the call does not return before the
    result of the wait is received, which it receives once.  Of the
    calls [Execute] itself makes, [syscall.Kill] comes at most once: in
    the cancellation case after a successful group lookup, on the negated
    group id and with SIGTERM, and in no other case.  (What [os/exec]
    does on its own to a command made with [CommandContext] is not a call
    of [Execute] and has no event here.) *)
Theorem started_process_is_joined tool ctx run args cmdStr :
  args !! "command" = Some (AString cmdStr) →
  start_err run = None →
  List.filter
    (λ e, match e with EvRecvDone => true | _ => false end)
    (Execute tool ctx run args).2
  = [EvRecvDone] ∧
  List.filter is_Kill (Execute tool ctx run args).2
  = match selected run, getpgid_cancelled run with
    | CtxDone, (pgid, None) => [EvKill (- pgid) SIGTERM]
    | _, _ => []
    end.
Proof.
  intros Hcmd Hstart. unfold Execute, index. rewrite Hcmd, Hstart. simpl.
  destruct (as_string (default ANil (args !! "directory"))) as [dir ok].
  destruct (selected run).
  - by destruct (getpgid_cancelled run) as [pgid [e|]].
  - destruct (decode (wait_err run)) as [[exitCode signal] cmdErr].
    by destruct (getpgid_cancelled run) as [pgid [e|]].
Qed.

End RunShellCommandShape.

(** X1 at a "command" that is a number. *)
Lemma numeric_command_is_refused :
  RunShellCommandTool.Execute (H := examples.platform) examples.shell
    Background examples.echo_run {[ "command" := AInt 42 ]}
  = ((None, Some "missing or invalid 'command' argument"), []).
Proof.
  apply (command_is_required (H := examples.platform) examples.shell
           Background examples.echo_run {[ "command" := AInt 42 ]}).
  intros cmdStr. discriminate.
Defined.

(** X2 where [bash] is not installed. *)
Lemma no_bash_is_reported :
  RunShellCommandTool.Execute (H := examples.platform) examples.shell
    Background more_examples.no_bash_run examples.echo_args
  = ((None,
      Some ("failed to start command: "
              +:+ "exec: bash: executable file not found in $PATH")),
     [RunShellCommandTool.EvStart ["bash"; "-c"; "echo hello"] "/proj"
        true]).
Proof.
  apply (start_failure_is_reported (H := examples.platform) examples.shell
           Background more_examples.no_bash_run examples.echo_args
           "echo hello");
    reflexivity.
Defined.

(** X3 at [exit 3] run in "sub". *)
Lemma exit3_runs_in_sub :
  ∃ dir rest,
    (RunShellCommandTool.Execute (H := examples.platform) examples.shell
       Background more_examples.exit3_run more_examples.exit3_args).2
    = RunShellCommandTool.EvStart ["bash"; "-c"; "exit 3"] dir true
        :: rest ∧
    (∀ d, more_examples.exit3_args !! "directory" = Some (AString d) →
          d ≠ "" → dir = "/proj" +:+ "/" +:+ d) ∧
    ((∀ d, more_examples.exit3_args !! "directory" = Some (AString d) →
           d = "") →
     dir = "/proj").
Proof.
  apply (working_directory (H := examples.platform) examples.shell
           Background more_examples.exit3_run more_examples.exit3_args
           "exit 3").
  reflexivity.
Defined.

(** X4 at [exit 3]: the wait status 768 is that of the exit code 3. *)
Lemma exit3_is_reported :
  ∃ result evs,
    RunShellCommandTool.Execute (H := examples.platform) examples.shell
      Background more_examples.exit3_run more_examples.exit3_args
    = ((Some result, None), evs) ∧
    result !! "Exit Code" = Some (AInt 3) ∧
    result !! "Signal" = Some (AInt (-1)) ∧
    result !! "Error" = Some (AString "exit status 3").
Proof.
  apply (exit_code_is_reported (H := examples.platform) examples.shell
           Background more_examples.exit3_run more_examples.exit3_args
           "exit 3" "exit status 3" 3);
    (reflexivity || lia).
Defined.

(** X5 at a shell killed by signal 9. *)
Lemma sigkill_is_reported :
  ∃ result evs,
    RunShellCommandTool.Execute (H := examples.platform) examples.shell
      Background examples.kill_run examples.kill_args
    = ((Some result, None), evs) ∧
    result !! "Exit Code" = Some (AInt (-1)) ∧
    result !! "Signal" = Some (AInt 9) ∧
    result !! "Error" = Some (AString "signal: killed").
Proof.
  apply (signal_is_reported (H := examples.platform) examples.shell
           Background examples.kill_run examples.kill_args
           "kill -9 $$" "signal: killed" 9 false);
    (reflexivity || lia).
Defined.

(** X6 at a failed copy of the output. *)
Lemma io_error_is_reported :
  ∃ result evs,
    RunShellCommandTool.Execute (H := examples.platform) examples.shell
      Background more_examples.io_error_run examples.echo_args
    = ((Some result, None), evs) ∧
    result !! "Exit Code" = Some (AInt (-1)) ∧
    result !! "Signal" = Some (AInt (-1)) ∧
    result !! "Error" = Some (AString "io: read/write on closed pipe") ∧
    result !! "Stdout" = Some (AString "par") ∧
    result !! "Stderr" = Some (AString "").
Proof.
  apply (wait_error_is_reported (H := examples.platform) examples.shell
           Background more_examples.io_error_run examples.echo_args
           "echo hello");
    reflexivity.
Defined.

(** X7 at [kill -9 $$], whose group is gone when it is looked up. *)
Lemma killed_result_fields :
  ∃ result,
    (RunShellCommandTool.Execute (H := examples.platform) examples.shell
       Background examples.kill_run examples.kill_args).1.1
    = Some result ∧
    dom result
    = list_to_set ["Command"; "Directory"; "Stdout"; "Stderr"; "Error";
                   "Exit Code"; "Signal"; "Background PIDs";
                   "Process Group PGID"] ∧
    result !! "Command" = examples.kill_args !! "command" ∧
    result !! "Background PIDs" = Some (ASlice []) ∧
    result !! "Process Group PGID" = Some (AInt (-1)).
Proof.
  eexists. split; [reflexivity|].
  apply (result_has_nine_fields (H := examples.platform) examples.shell
           Background examples.kill_run examples.kill_args).
  reflexivity.
Defined.

(** X8 at the cancelled [sleep 60]: one receive from [done], and one
    [syscall.Kill], of the group -4244 with signal 15. *)
Lemma cancelled_sleep_is_joined :
  List.filter
    (λ e, match e with
          | RunShellCommandTool.EvRecvDone => true
          | _ => false
          end)
    (RunShellCommandTool.Execute (H := examples.platform) examples.shell
       examples.cancelled examples.sleep_run examples.sleep_args).2
  = [RunShellCommandTool.EvRecvDone] ∧
  List.filter is_Kill
    (RunShellCommandTool.Execute (H := examples.platform) examples.shell
       examples.cancelled examples.sleep_run examples.sleep_args).2
  = [RunShellCommandTool.EvKill (-4244) 15].
Proof.
  apply (started_process_is_joined (H := examples.platform) examples.shell
           examples.cancelled examples.sleep_run examples.sleep_args
           "sleep 60");
    reflexivity.
Defined.

(** ** The multi-file reader: arguments, expansion, deduplication *)
Section ReadManyFilesMore.
Import ReadManyFilesTool.
Context `{Platform}.
Variable tool : t.

Lemma range_paths_resolve patterns :
  Forall (λ pattern, entry_error tool (AString pattern) = None) patterns →
  ∀ filePaths,
    range_paths tool (AString <$> patterns) filePaths
    = (filePaths ++ List.concat (resolve tool <$> patterns), None).
Proof.
  induction 1 as [|pattern patterns Hp _ IH]; intros filePaths.
  - simpl. by rewrite app_nil_r.
  - cbn [fmap list_fmap range_paths as_string negb List.concat].
    unfold entry_error in Hp. unfold resolve at 1.
    destruct (strings_ContainsAny pattern "*?[]").
    + destruct (filepath_Glob _) as [matches [e|]]; [done|].
      rewrite IH. by rewrite app_assoc.
    + rewrite IH. by rewrite <- app_assoc.
Qed.

Lemma range_paths_stops good bad rest e :
  Forall (expands tool) good →
  entry_error tool bad = Some e →
  ∀ filePaths, range_paths tool (good ++ bad :: rest) filePaths = ([], Some e).
Proof.
  intros Hgood Hbad.
  induction Hgood as [|p good (pattern & -> & Hglob) _ IH]; intros filePaths.
  - cbn [app range_paths]. unfold entry_error in Hbad.
    destruct bad as [| | |pattern| |]; simpl; try by injection Hbad as <-.
    destruct (strings_ContainsAny pattern "*?[]"); [|done].
    destruct (filepath_Glob _) as [matches [e'|]]; [|done].
    simpl in Hbad. by injection Hbad as <-.
  - cbn [app range_paths as_string negb].
    destruct (strings_ContainsAny pattern "*?[]"); [|apply IH].
    specialize (Hglob eq_refl).
    destruct (filepath_Glob _) as [matches err]. simpl in Hglob.
    subst err. apply IH.
Qed.

Lemma keep_first_filter (P : string → Prop) `{!∀ x, Decision (P x)} l :
  keep_first (filter P l) = filter P (keep_first l).
Proof.
  induction l as [|x l IH]; [done|].
  cbn [keep_first]. destruct (decide (P x)) as [HP|HP].
  - rewrite !filter_cons_True by done. cbn [keep_first].
    rewrite IH. f_equal. rewrite !list_filter_filter.
    apply list_filter_iff. naive_solver.
  - rewrite !filter_cons_False by done. rewrite IH.
    rewrite list_filter_filter. apply list_filter_iff.
    intros y. split; [|naive_solver]. intros Hy. split; [done|].
    by intros ->.
Qed.

Lemma range_filePaths_spec filePaths :
  ∀ seen unique,
    range_filePaths filePaths seen unique
    = unique
        ++ keep_first (filter (λ p, seen !! p ≠ Some true) filePaths).
Proof.
  induction filePaths as [|p filePaths IH]; intros seen unique.
  - simpl. by rewrite app_nil_r.
  - cbn [range_filePaths].
    destruct (decide (seen !! p = Some true)) as [Hp|Hp].
    + rewrite Hp. simpl. rewrite filter_cons_False by naive_solver.
      apply IH.
    + assert (negb (default false (seen !! p)) = true) as ->.
      { destruct (seen !! p) as [[|]|]; done. }
      rewrite IH, filter_cons_True by done. cbn [keep_first].
      rewrite <- app_assoc. simpl. do 2 f_equal.
      rewrite <- keep_first_filter. f_equal.
      rewrite list_filter_filter. apply list_filter_iff.
      intros q. destruct (decide (p = q)) as [->|Hne].
      * rewrite lookup_insert_eq. naive_solver.
      * rewrite lookup_insert_ne by done. naive_solver.
Qed.

Lemma keep_first_elem p l : p ∈ keep_first l ↔ p ∈ l.
Proof.
  induction l as [|x l IH]; [done|].
  cbn [keep_first]. rewrite !elem_of_cons, list_elem_of_filter, IH.
  destruct (decide (p = x)); naive_solver.
Qed.

Lemma keep_first_NoDup l : NoDup (keep_first l).
Proof.
  induction l as [|x l IH]; [constructor|].
  cbn [keep_first]. apply NoDup_cons. split.
  - rewrite list_elem_of_filter. naive_solver.
  - by apply NoDup_filter.
Qed.

Lemma range_uniqueFilePaths_prefix ctx files :
  ∀ polls content,
    (∀ k, (polls ≤ k < polls + List.length files)%nat → Done ctx k = false) →
    range_uniqueFilePaths ctx files polls content
    = (foldl (λ content filePath, content +:+ write_file filePath)
             content files, None).
Proof.
  induction files as [|f files IH]; intros polls content Hlive.
  - reflexivity.
  - cbn [range_uniqueFilePaths foldl].
    rewrite Hlive by (simpl; lia). apply IH.
    intros k Hk. apply Hlive. simpl. lia.
Qed.

Lemma range_uniqueFilePaths_cancelled ctx files :
  ∀ polls content k,
    (polls ≤ k < polls + List.length files)%nat →
    Done ctx k = true →
    range_uniqueFilePaths ctx files polls content = ("", Some (Err ctx)).
Proof.
  induction files as [|f files IH]; intros polls content k Hk Hdone.
  - simpl in Hk. lia.
  - cbn [range_uniqueFilePaths].
    destruct (Done ctx polls) eqn:Hp; [done|].
    apply (IH _ _ k); [|done].
    assert (k ≠ polls) by congruence. simpl in Hk. lia.
Qed.

(** X9: without a "paths" that is an array, the call fails with the text
    "missing or invalid 'paths' argument", whatever the file system and
    the context. *)
Theorem paths_is_required ctx args :
  (∀ paths, args !! "paths" ≠ Some (ASlice paths)) →
  Execute tool ctx args = (None, Some "missing or invalid 'paths' argument").
Proof.
  intros Hpaths. unfold Execute, index.
  destruct (args !! "paths") as [[| | | |paths|]|] eqn:E; try reflexivity.
  by destruct (Hpaths paths).
Qed.

(** X10: the first loop resolves the entries in order: a pattern with a
    glob metacharacter stands for its matches, any other entry for its
    path under the project root, whether that path exists or not. *)
Theorem paths_resolve_in_order patterns filePaths :
  Forall (λ pattern, entry_error tool (AString pattern) = None) patterns →
  range_paths tool (AString <$> patterns) filePaths
  = (filePaths ++ List.concat (resolve tool <$> patterns), None).
Proof. intros Hp. by apply range_paths_resolve. Qed.

(** X11: the first entry that is not a string, or whose pattern
    [filepath.Glob] refuses, ends the call with its error; the entries
    after it, the files and the context play no part. *)
Theorem first_bad_entry_fails ctx args good bad rest e :
  args !! "paths" = Some (ASlice (good ++ bad :: rest)) →
  Forall (expands tool) good →
  entry_error tool bad = Some e →
  Execute tool ctx args = (None, Some e).
Proof.
  intros Hargs Hgood Hbad. unfold Execute, index. rewrite Hargs. simpl.
  by rewrite (range_paths_stops good bad rest e Hgood Hbad []).
Qed.

(** X12: the second loop keeps every path once and loses none. *)
Theorem unique_paths_NoDup filePaths :
  NoDup (range_filePaths filePaths ∅ []) ∧
  ∀ p, p ∈ range_filePaths filePaths ∅ [] ↔ p ∈ filePaths.
Proof.
  rewrite range_filePaths_spec. simpl. split.
  - apply keep_first_NoDup.
  - intros p. rewrite keep_first_elem, list_elem_of_filter.
    rewrite lookup_empty. naive_solver.
Qed.

(** X13: the second loop keeps the paths in the order of their first
    occurrence. *)
Theorem unique_paths_first_seen filePaths :
  range_filePaths filePaths ∅ [] = keep_first filePaths.
Proof.
  rewrite range_filePaths_spec. simpl. f_equal.
  induction filePaths as [|p filePaths IH]; [done|].
  rewrite filter_cons_True; [by rewrite IH|].
  by rewrite lookup_empty.
Qed.

(** X14: when the context is found cancelled at one of the polls, one
    before each file, the call returns the context's error and no
    content, not even that of the files already read. *)
Theorem cancelled_read_returns_nothing ctx args paths filePaths k :
  args !! "paths" = Some (ASlice paths) →
  range_paths tool paths [] = (filePaths, None) →
  (k < List.length (range_filePaths filePaths ∅ []))%nat →
  Done ctx k = true →
  Execute tool ctx args = (None, Some (Err ctx)).
Proof.
  intros Hargs Hpaths Hk Hdone. unfold Execute, index.
  rewrite Hargs. simpl. rewrite Hpaths.
  rewrite (range_uniqueFilePaths_cancelled ctx _ 0%nat "" k); [done| |done].
  lia.
Qed.

(** X15: only the polls made, one per distinct path, count: a context
    that is live at each of them gives the whole content, whatever it
    becomes afterwards. *)
Theorem late_cancellation_is_not_seen ctx args paths filePaths :
  args !! "paths" = Some (ASlice paths) →
  range_paths tool paths [] = (filePaths, None) →
  (∀ k, (k < List.length (range_filePaths filePaths ∅ []))%nat →
        Done ctx k = false) →
  Execute tool ctx args
  = (Some {[ "content" :=
               AString (written (range_filePaths filePaths ∅ [])) ]},
     None).
Proof.
  intros Hargs Hpaths Hlive. unfold Execute, index.
  rewrite Hargs. simpl. rewrite Hpaths.
  rewrite range_uniqueFilePaths_prefix; [done|].
  intros k Hk. apply Hlive. lia.
Qed.

(** X16: every problem with one file is a marker line for its path in
    the content of a call that succeeds: "(Not Found)" for a missing
    path, "(Error: ...)" for another failure of [os.Stat], "(Directory)"
    for a directory and "(Error reading: ...)" for a file that cannot be
    read. *)
Theorem problem_files_are_marked ctx args paths filePaths filePath :
  args !! "paths" = Some (ASlice paths) →
  range_paths tool paths [] = (filePaths, None) →
  (∀ k, Done ctx k = false) →
  filePath ∈ filePaths →
  ∃ before block after,
    Execute tool ctx args
    = (Some {[ "content" := AString (before +:+ block +:+ after) ]}, None) ∧
    (∀ e, os_Stat filePath = StatErr e true →
          block = "---" +:+ filePath +:+ " (Not Found)---" +:+ LF) ∧
    (∀ e, os_Stat filePath = StatErr e false →
          block = "---" +:+ filePath +:+ " (Error: " +:+ e +:+ ")---"
                    +:+ LF) ∧
    (os_Stat filePath = StatInfo true →
     block = "---" +:+ filePath +:+ " (Directory)---" +:+ LF) ∧
    (∀ data e, os_Stat filePath = StatInfo false →
               os_ReadFile filePath = (data, Some e) →
               block = "---" +:+ filePath +:+ " (Error reading: " +:+ e
                         +:+ ")---" +:+ LF).
Proof.
  intros Hargs Hpaths Hlive Hin.
  assert (filePath ∈ range_filePaths filePaths ∅ []) as Hu.
  { apply range_filePaths_elem. right. split; [done|].
    by rewrite lookup_empty. }
  apply list_elem_of_split in Hu as (l1 & l2 & Hu).
  exists (written l1), (write_file filePath), (written l2).
  split.
  - rewrite (Execute_live tool ctx args paths filePaths Hargs Hpaths Hlive).
    by rewrite Hu, written_split.
  - unfold write_file. repeat split.
    + by intros e ->.
    + by intros e ->.
    + by intros ->.
    + by intros data e -> ->.
Qed.

Lemma range_filePaths_NoDup filePaths :
  NoDup (range_filePaths filePaths ∅ []).
Proof. rewrite range_filePaths_spec. simpl. apply keep_first_NoDup. Qed.

(** C9: a regular file that is read, among the paths a call resolves,
    has exactly one place in the list of distinct paths, and the
    returned content is what is written for the paths before it, then
    the block of this file, then what is written for the paths after
    it.  When a null byte occurs anywhere in the file the block is the
    marker "(Binary File, content not included)" for its path and
    nothing more, so none of its bytes is in the content on its account;
    otherwise the block is the path marker followed by the whole of its
    bytes.  The name of the file plays no part. *)
Theorem null_byte_means_binary ctx args paths filePaths filePath data :
  args !! "paths" = Some (ASlice paths) →
  range_paths tool paths [] = (filePaths, None) →
  (∀ k, Done ctx k = false) →
  filePath ∈ filePaths →
  os_Stat filePath = StatInfo false →
  os_ReadFile filePath = (data, None) →
  ∃ before after,
    range_filePaths filePaths ∅ [] = before ++ filePath :: after ∧
    (filePath ∉ before) ∧ (filePath ∉ after) ∧
    Execute tool ctx args
    = (Some {[ "content" :=
                 AString (written before +:+ write_file filePath
                            +:+ written after) ]}, None) ∧
    (In Ascii.zero (list_ascii_of_string data) →
     write_file filePath
     = "---" +:+ filePath +:+ " (Binary File, content not included)---"
             +:+ LF) ∧
    (¬ In Ascii.zero (list_ascii_of_string data) →
     write_file filePath
     = "---" +:+ filePath +:+ " --- " +:+ data +:+ LF).
Proof.
  intros Hargs Hpaths Hlive Hin Hstat Hread.
  assert (filePath ∈ range_filePaths filePaths ∅ []) as Hu.
  { apply range_filePaths_elem. right. split; [done|].
    by rewrite lookup_empty. }
  apply list_elem_of_split in Hu as (l1 & l2 & Hu).
  pose proof (range_filePaths_NoDup filePaths) as Hnd.
  rewrite Hu in Hnd. apply NoDup_app in Hnd as (_ & Hdisj & Hnd).
  apply NoDup_cons in Hnd as [Hl2 _].
  exists l1, l2. split; [done|].
  split. { intros Hl1. apply (Hdisj _ Hl1). by left. }
  split; [done|]. split.
  - rewrite (Execute_live tool ctx args paths filePaths Hargs Hpaths Hlive).
    by rewrite Hu, written_split.
  - unfold write_file. rewrite Hstat, Hread.
    destruct (bytes_ContainsRune data Ascii.zero) eqn:Hnul.
    + split; [done|]. intros Hno. destruct Hno.
      by apply bytes_ContainsRune_In.
    + split; [|done]. intros Hyes.
      apply bytes_ContainsRune_In in Hyes. congruence.
Qed.

End ReadManyFilesMore.

(** C9 at a file named [logo.txt] whose second byte is null: it comes
    last of four distinct paths and its block is the marker alone. *)
Lemma logo_txt_is_binary :
  ∃ before after,
    ReadManyFilesTool.range_filePaths
      ["/proj/a.txt"; "/proj/missing.txt"; "/proj/docs"; "/proj/a.txt";
       "/proj/logo.txt"] ∅ []
    = before ++ "/proj/logo.txt" :: after ∧
    ("/proj/logo.txt" ∉ before) ∧ ("/proj/logo.txt" ∉ after) ∧
    ReadManyFilesTool.Execute (H := examples.platform) examples.reader
      Background examples.mixed_args
    = (Some {[ "content" :=
                 AString (written (H := examples.platform) before
                            +:+ ReadManyFilesTool.write_file
                                  (H := examples.platform) "/proj/logo.txt"
                            +:+ written (H := examples.platform) after) ]},
       None) ∧
    (In Ascii.zero
        (list_ascii_of_string (String "P" (String Ascii.zero "NG"))) →
     ReadManyFilesTool.write_file (H := examples.platform) "/proj/logo.txt"
     = "---" +:+ "/proj/logo.txt"
             +:+ " (Binary File, content not included)---" +:+ LF) ∧
    (¬ In Ascii.zero
         (list_ascii_of_string (String "P" (String Ascii.zero "NG"))) →
     ReadManyFilesTool.write_file (H := examples.platform) "/proj/logo.txt"
     = "---" +:+ "/proj/logo.txt" +:+ " --- "
             +:+ String "P" (String Ascii.zero "NG") +:+ LF).
Proof.
  apply (null_byte_means_binary (H := examples.platform) examples.reader
           Background examples.mixed_args
           [AString "a.txt"; AString "missing.txt"; AString "docs";
            AString "a.txt"; AString "logo.txt"]
           ["/proj/a.txt"; "/proj/missing.txt"; "/proj/docs";
            "/proj/a.txt"; "/proj/logo.txt"]).
  - reflexivity.
  - reflexivity.
  - reflexivity.
  - repeat constructor.
  - reflexivity.
  - reflexivity.
Defined.

(** The block of that file, computed: the marker and not one of the four
    bytes of the file after it. *)
Example logo_txt_block :
  ReadManyFilesTool.write_file (H := examples.platform) "/proj/logo.txt"
  = "---/proj/logo.txt (Binary File, content not included)---" +:+ LF.
Proof. reflexivity. Qed.

(** X17: each of the two tools returns either a result map or an error,
    never both and never neither. *)
Theorem one_of_result_and_error `{Platform} shell reader ctx run args :
  (is_Some (RunShellCommandTool.Execute shell ctx run args).1.1
   ↔ (RunShellCommandTool.Execute shell ctx run args).1.2 = None) ∧
  (is_Some (ReadManyFilesTool.Execute reader ctx args).1
   ↔ (ReadManyFilesTool.Execute reader ctx args).2 = None).
Proof.
  split.
  - unfold RunShellCommandTool.Execute.
    destruct (as_string (index args "command")) as [cmdStr [|]]; simpl;
      [|split; [by intros [? ?]|done]].
    destruct (as_string (index args "directory")) as [dir ok].
    destruct (RunShellCommandTool.start_err run); simpl;
      [split; [by intros [? ?]|done]|].
    destruct (RunShellCommandTool.selected run).
    + destruct (RunShellCommandTool.getpgid_cancelled run) as [pgid err].
      simpl. split; [by intros [? ?]|done].
    + destruct (RunShellCommandTool.decode _) as [[exitCode signal] cmdErr].
      simpl. split; [done|by eexists].
  - unfold ReadManyFilesTool.Execute.
    destruct (as_slice (index args "paths")) as [paths [|]]; simpl;
      [|split; [by intros [? ?]|done]].
    destruct (ReadManyFilesTool.range_paths reader paths [])
      as [filePaths [e|]]; [split; [by intros [? ?]|done]|].
    destruct (ReadManyFilesTool.range_uniqueFilePaths _ _ _ _)
      as [content [e|]]; simpl.
    + split; [by intros [? ?]|done].
    + split; [done|by eexists].
Qed.

(** X9 at a "paths" that is a string. *)
Lemma string_paths_is_refused :
  ReadManyFilesTool.Execute (H := examples.platform) examples.reader
    Background {[ "paths" := AString "a.txt" ]}
  = (None, Some "missing or invalid 'paths' argument").
Proof.
  apply (paths_is_required (H := examples.platform) examples.reader
           Background {[ "paths" := AString "a.txt" ]}).
  intros paths. discriminate.
Defined.

(** X10 at a pattern with two matches followed by a path that does not
    exist. *)
Lemma pattern_then_literal :
  ReadManyFilesTool.range_paths (H := more_examples.globbing)
    examples.reader (AString <$> ["*.txt"; "missing.txt"]) []
  = ([] ++ ["/proj/a.txt"; "/proj/logo.txt"; "/proj/missing.txt"], None).
Proof.
  apply (paths_resolve_in_order (H := more_examples.globbing)
           examples.reader ["*.txt"; "missing.txt"] []).
  repeat constructor.
Defined.

(** X11 at a refused pattern between a path and a number. *)
Lemma refused_pattern_fails :
  ReadManyFilesTool.Execute (H := examples.strict_glob) examples.reader
    examples.cancelled
    {[ "paths" := ASlice [AString "a.txt"; AString "["; AInt 42] ]}
  = (None, Some "error globbing pattern [: syntax error in pattern").
Proof.
  apply (first_bad_entry_fails (H := examples.strict_glob) examples.reader
           examples.cancelled
           {[ "paths" := ASlice [AString "a.txt"; AString "["; AInt 42] ]}
           [AString "a.txt"] (AString "[") [AInt 42]).
  - reflexivity.
  - repeat constructor. eexists. split; [reflexivity|discriminate].
  - reflexivity.
Defined.

(** X14 at a context cancelled after the first file was read. *)
Lemma cancelled_after_first_file :
  ReadManyFilesTool.Execute (H := examples.platform) examples.reader
    more_examples.cancelled_later examples.mixed_args
  = (None, Some "context canceled").
Proof.
  apply (cancelled_read_returns_nothing (H := examples.platform)
           examples.reader more_examples.cancelled_later examples.mixed_args
           [AString "a.txt"; AString "missing.txt"; AString "docs";
            AString "a.txt"; AString "logo.txt"]
           ["/proj/a.txt"; "/proj/missing.txt"; "/proj/docs";
            "/proj/a.txt"; "/proj/logo.txt"] 1%nat).
  - reflexivity.
  - reflexivity.
  - vm_compute. lia.
  - reflexivity.
Defined.

(** X15 at a context cancelled after the fourth, and last, poll. *)
Lemma cancelled_after_last_poll :
  ReadManyFilesTool.Execute (H := examples.platform) examples.reader
    {| Done := λ k, Nat.leb 4 k; Err := "context canceled" |}
    examples.mixed_args
  = (Some {[ "content" :=
               AString (written (H := examples.platform)
                          (ReadManyFilesTool.range_filePaths
                             ["/proj/a.txt"; "/proj/missing.txt";
                              "/proj/docs"; "/proj/a.txt";
                              "/proj/logo.txt"] ∅ [])) ]},
     None).
Proof.
  apply (late_cancellation_is_not_seen (H := examples.platform)
           examples.reader
           {| Done := λ k, Nat.leb 4 k; Err := "context canceled" |}
           examples.mixed_args
           [AString "a.txt"; AString "missing.txt"; AString "docs";
            AString "a.txt"; AString "logo.txt"]).
  - reflexivity.
  - reflexivity.
  - intros k Hk. vm_compute in Hk.
    destruct k as [|[|[|[|k]]]]; [reflexivity..|lia].
Defined.

(** X16 at the directory of the mixed request. *)
Lemma docs_is_marked :
  ∃ before block after,
    ReadManyFilesTool.Execute (H := examples.platform) examples.reader
      Background examples.mixed_args
    = (Some {[ "content" := AString (before +:+ block +:+ after) ]}, None) ∧
    (∀ e, os_Stat (Platform := examples.platform) "/proj/docs"
          = StatErr e true →
          block = "---" +:+ "/proj/docs" +:+ " (Not Found)---" +:+ LF) ∧
    (∀ e, os_Stat (Platform := examples.platform) "/proj/docs"
          = StatErr e false →
          block = "---" +:+ "/proj/docs" +:+ " (Error: " +:+ e +:+ ")---"
                    +:+ LF) ∧
    (os_Stat (Platform := examples.platform) "/proj/docs" = StatInfo true →
     block = "---" +:+ "/proj/docs" +:+ " (Directory)---" +:+ LF) ∧
    (∀ data e,
       os_Stat (Platform := examples.platform) "/proj/docs"
       = StatInfo false →
       os_ReadFile (Platform := examples.platform) "/proj/docs"
       = (data, Some e) →
       block = "---" +:+ "/proj/docs" +:+ " (Error reading: " +:+ e
                 +:+ ")---" +:+ LF).
Proof.
  apply (problem_files_are_marked (H := examples.platform) examples.reader
           Background examples.mixed_args
           [AString "a.txt"; AString "missing.txt"; AString "docs";
            AString "a.txt"; AString "logo.txt"]
           ["/proj/a.txt"; "/proj/missing.txt"; "/proj/docs";
            "/proj/a.txt"; "/proj/logo.txt"]).
  - reflexivity.
  - reflexivity.
  - reflexivity.
  - repeat constructor.
Defined.

(** ** The tool-call loop: registered tools, text, termination *)
Section ToolCallLoopMore.
Import main.
Context {W : Type}.
Variable registry : gmap string (Tool W).
Variable client : Client W.
Variable ctx : Context.

Lemma append_nil_r (s : string) : s +:+ "" = s.
Proof.
  induction s as [|c s IH]; [reflexivity|].
  change (String c (s +:+ "") = String c s). by rewrite IH.
Qed.

Lemma range_Parts_body_known c part tool toolResponses text w :
  registry !! fc_Name c = Some tool →
  FunctionCall_ part = Some c →
  range_Parts_body registry ctx (toolResponses, text) part w
  = let '((toolResult, toolErr), w') := Execute tool ctx (fc_Args c) w in
    match toolErr with
    | Some e =>
        ((toolResponses ++ [error_response c e], text), w',
         [EvLog (LogCalled (fc_Name c) (fc_Args c));
          EvExecute (fc_Name c) (fc_Args c);
          EvLog (LogToolError (fc_Name c) e)])
    | None =>
        ((toolResponses
            ++ [response_part {| fr_Name := fc_Name c;
                                 fr_Response := toolResult |}], text), w',
         [EvLog (LogCalled (fc_Name c) (fc_Args c));
          EvExecute (fc_Name c) (fc_Args c)])
    end.
Proof.
  intros Hc Hpart. unfold range_Parts_body. rewrite Hpart.
  unfold mbind, M_bind, dispatch, call. rewrite Hc. simpl.
  by destruct (Execute tool ctx (fc_Args c) w) as [[res [e|]] w'].
Qed.

Lemma range_Parts_body_plain part toolResponses text w :
  FunctionCall_ part = None →
  range_Parts_body registry ctx (toolResponses, text) part w
  = ((toolResponses, text +:+ Text part), w, []).
Proof.
  intros Hpart. unfold range_Parts_body. rewrite Hpart.
  destruct (String.eqb_spec (Text part) "") as [->|_]; simpl.
  - by rewrite append_nil_r.
  - reflexivity.
Qed.

(** X18: a call whose name is registered runs that tool once, on the
    arguments of the call and in the current world; an error of the tool
    becomes a response whose "error" field is its text, the result map
    being dropped, and otherwise the result map is the response. *)
Theorem registered_tool_runs_once c part tool toolResponses text w :
  registry !! fc_Name c = Some tool →
  FunctionCall_ part = Some c →
  range_Parts_body registry ctx (toolResponses, text) part w
  = let '((toolResult, toolErr), w') := Execute tool ctx (fc_Args c) w in
    match toolErr with
    | Some e =>
        ((toolResponses ++ [error_response c e], text), w',
         [EvLog (LogCalled (fc_Name c) (fc_Args c));
          EvExecute (fc_Name c) (fc_Args c);
          EvLog (LogToolError (fc_Name c) e)])
    | None =>
        ((toolResponses
            ++ [response_part {| fr_Name := fc_Name c;
                                 fr_Response := toolResult |}], text), w',
         [EvLog (LogCalled (fc_Name c) (fc_Args c));
          EvExecute (fc_Name c) (fc_Args c)])
    end.
Proof. apply range_Parts_body_known. Qed.

Lemma executions_body acc part w :
  executions (range_Parts_body registry ctx acc part w).2
  = omap (λ c, (λ _, (fc_Name c, fc_Args c)) <$> registry !! fc_Name c)
         (function_calls [part]).
Proof.
  destruct acc as [toolResponses text]. unfold function_calls.
  destruct (FunctionCall_ part) as [c|] eqn:Hpart.
  - destruct (registry !! fc_Name c) as [tool|] eqn:Hc.
    + rewrite (range_Parts_body_known c part tool _ _ _ Hc Hpart).
      simpl. rewrite Hpart. simpl. rewrite Hc.
      by destruct (Execute tool ctx (fc_Args c) w) as [[res [e|]] w'].
    + rewrite (range_Parts_body_unknown registry ctx c part _ _ _ Hc Hpart).
      simpl. rewrite Hpart. simpl. by rewrite Hc.
  - rewrite (range_Parts_body_plain part _ _ _ Hpart).
    simpl. by rewrite Hpart.
Qed.

(** X19: in one pass over some parts the tools executed are those of the
    calls whose names are registered, once each, in the order of the
    calls and with their arguments. *)
Theorem executions_follow_calls parts :
  ∀ acc w,
    executions (range_Parts registry ctx parts acc w).2
    = omap (λ c, (λ _, (fc_Name c, fc_Args c)) <$> registry !! fc_Name c)
           (function_calls parts).
Proof.
  induction parts as [|part parts IH]; intros acc w; [done|].
  cbn [range_Parts]. unfold mbind, M_bind.
  pose proof (executions_body acc part w) as Hbody.
  destruct (range_Parts_body registry ctx acc part w) as [[acc1 w1] e1].
  specialize (IH acc1 w1).
  destruct (range_Parts registry ctx parts acc1 w1) as [[acc2 w2] e2].
  cbn [fst snd] in *.
  change (function_calls (part :: parts))
    with (function_calls ([part] ++ parts)).
  unfold function_calls in *. rewrite !omap_app, <- Hbody, <- IH.
  unfold executions. by rewrite omap_app.
Qed.

(** X20: the text a pass accumulates is the text it started from
    followed by the texts of the parts that carry no function call, in
    order; the text of a part that carries a call is dropped. *)
Theorem text_is_accumulated parts :
  ∀ toolResponses text w,
    (range_Parts registry ctx parts (toolResponses, text) w).1.1.2
    = text +:+ model_text parts.
Proof.
  induction parts as [|part parts IH]; intros toolResponses text w.
  - simpl. by rewrite append_nil_r.
  - cbn [range_Parts]. unfold mbind, M_bind.
    destruct (FunctionCall_ part) as [c|] eqn:Hpart.
    + destruct (range_Parts_body_spec registry ctx toolResponses text part w)
        as (rs & text1 & w1 & evs1 & Hbody & _ & _).
      assert (text1 = text) as ->.
      { revert Hbody. unfold range_Parts_body. rewrite Hpart.
        unfold mbind, M_bind. simpl.
        destruct (dispatch registry ctx c w) as [[[res [e|]] w'] evs'];
          simpl; congruence. }
      rewrite Hbody. specialize (IH (toolResponses ++ rs) text w1).
      destruct (range_Parts registry ctx parts _ w1) as [[acc2 w2] e2].
      simpl in *. unfold model_text in *. simpl. by rewrite Hpart.
    + rewrite (range_Parts_body_plain part _ _ _ Hpart).
      specialize (IH toolResponses (text +:+ Text part) w).
      destruct (range_Parts registry ctx parts _ w) as [[acc2 w2] e2].
      simpl in *. unfold model_text in *. simpl. rewrite Hpart.
      by rewrite IH, append_assoc.
Qed.

Lemma range_Parts_plain parts :
  function_calls parts = [] →
  ∀ toolResponses text w,
    range_Parts registry ctx parts (toolResponses, text) w
    = ((toolResponses, text +:+ model_text parts), w, []).
Proof.
  induction parts as [|part parts IH]; intros Hcalls toolResponses text w.
  - simpl. by rewrite append_nil_r.
  - unfold function_calls in Hcalls. simpl in Hcalls.
    destruct (FunctionCall_ part) as [c|] eqn:Hpart; [done|].
    cbn [range_Parts]. unfold mbind, M_bind.
    rewrite (range_Parts_body_plain part _ _ _ Hpart).
    rewrite (IH Hcalls). unfold model_text. simpl. rewrite Hpart.
    by rewrite append_assoc.
Qed.

(** X21: a response with candidates but no function call ends the turn
    at once: no tool is run and no message sent, the world is left as it
    is, and the accumulated text, if it is not empty, is printed after
    "Gemini: ". *)
Theorem text_response_ends_turn r fuel w :
  Candidates r ≠ [] →
  function_calls (all_parts (Candidates r)) = [] →
  toolCallLoop registry client ctx (S fuel) (Some r) w
  = (true, w,
     if String.eqb (model_text (all_parts (Candidates r))) "" then []
     else [EvPrint ("Gemini: " +:+ model_text (all_parts (Candidates r))
                      +:+ LF)]).
Proof.
  intros Hcands Hcalls. cbn [toolCallLoop]. unfold toolCallLoop_body.
  destruct (Candidates r) as [|cand cands] eqn:E; [done|].
  cbn [List.length Nat.eqb]. unfold mbind, M_bind.
  rewrite range_Candidates_flat, (range_Parts_plain _ Hcalls).
  cbn [List.length Nat.ltb Nat.leb].
  change ("" +:+ model_text (all_parts (cand :: cands)))
    with (model_text (all_parts (cand :: cands))).
  by destruct (String.eqb (model_text (all_parts (cand :: cands))) "").
Qed.

Lemma messages_quiet evs : Forall quiet evs → messages evs = [].
Proof.
  induction 1 as [|e evs He _ IH]; [done|].
  destruct e; try done; exact IH.
Qed.

Lemma toolCallLoop_body_sends r w :
  function_calls (all_parts (Candidates r)) ≠ [] →
  ∃ toolResponses evs w1,
    Forall quiet evs ∧
    toolCallLoop_body registry client ctx (Some r) w
    = let '((resp', sendErr), w2) := SendMessage client toolResponses w1 in
      match sendErr with
      | Some e =>
          (Break, w2,
           evs ++ [EvSendMessage toolResponses;
                   EvLog (LogSendToolResponses e)])
      | None => (Next resp', w2, evs ++ [EvSendMessage toolResponses])
      end.
Proof.
  intros Hcalls. unfold toolCallLoop_body.
  destruct (Candidates r) as [|cand cands] eqn:Hcands; [done|].
  cbn [List.length Nat.eqb]. unfold mbind, M_bind.
  rewrite range_Candidates_flat.
  destruct (range_Parts_spec registry ctx (all_parts (cand :: cands)) [] "" w)
    as (rs & text & w1 & evs & -> & Hrs & Hevs).
  exists rs, evs, w1. split; [done|].
  cbn [app]. destruct rs as [|r1 rs].
  { apply Forall2_length in Hrs.
    destruct (function_calls (all_parts (cand :: cands))); done. }
  cbn [List.length Nat.ltb Nat.leb]. unfold call.
  destruct (SendMessage client (r1 :: rs) w1) as [[resp' [e|]] w2];
    reflexivity.
Qed.

(** X22: the loop has no bound of its own: with a model that answers
    every message with a response that holds a function call, the loop
    is still running after any number of turns, having sent one message
    in each. *)
Theorem loop_runs_while_model_calls r fuel w :
  (∀ parts w0, ∃ r' w',
     SendMessage client parts w0 = ((Some r', None), w') ∧
     function_calls (all_parts (Candidates r')) ≠ []) →
  function_calls (all_parts (Candidates r)) ≠ [] →
  (toolCallLoop registry client ctx fuel (Some r) w).1.1 = false ∧
  List.length (messages (toolCallLoop registry client ctx fuel (Some r) w).2)
  = fuel.
Proof.
  intros Hclient. revert r w.
  induction fuel as [|fuel IH]; intros r w Hcalls; [done|].
  cbn [toolCallLoop]. unfold mbind, M_bind.
  destruct (toolCallLoop_body_sends r w Hcalls)
    as (toolResponses & evs & w1 & Hevs & ->).
  destruct (Hclient toolResponses w1) as (r' & w' & -> & Hcalls').
  destruct (IH r' w' Hcalls') as [Hleft Hlen].
  destruct (toolCallLoop registry client ctx fuel (Some r') w')
    as [[left w2] evs2].
  simpl in *. split; [done|].
  unfold messages in *. rewrite !omap_app.
  fold (messages evs). rewrite (messages_quiet evs Hevs).
  simpl. by rewrite Hlen.
Qed.

End ToolCallLoopMore.

(** ** The input loop and the program *)
Section InputLoop.
Import main.
Context {W : Type}.
Variable registry : gmap string (Tool W).
Variable client : Client W.
Variable ctx : Context.

(** X23: the line "quit" ends the input loop: what follows it on the
    input is never read, sent or answered. *)
Theorem input_after_quit_is_ignored fuel before after w :
  range_input registry client ctx fuel (before ++ "quit" :: after) w
  = range_input registry client ctx fuel (before ++ ["quit"]) w.
Proof.
  revert w. induction before as [|input before IH]; intros w.
  - reflexivity.
  - cbn [app range_input]. unfold mbind, M_bind, emit, call.
    destruct (String.eqb input "quit"); [reflexivity|].
    destruct (SendMessage client [text_part input] w) as [[resp [e|]] w1].
    + by rewrite IH.
    + destruct (toolCallLoop registry client ctx fuel resp w1)
        as [[[|] w2] e2]; [|reflexivity].
      by rewrite IH.
Qed.

(** X24: when no message reaches the model, every input line before
    "quit" is still read and sent, one message of one text part each;
    the tool-call loop is never entered, so the input loop ends whatever
    the fuel. *)
Theorem unreachable_model_skips_turns fuel lines w :
  (∀ parts w0, (SendMessage client parts w0).1.2 ≠ None) →
  (range_input registry client ctx fuel lines w).1.1 = true ∧
  messages (range_input registry client ctx fuel lines w).2
  = (λ input, [text_part input]) <$> before_quit lines.
Proof.
  intros Hclient. revert w.
  induction lines as [|input lines IH]; intros w; [done|].
  cbn [range_input before_quit]. unfold mbind, M_bind, emit, call.
  destruct (String.eqb input "quit"); [done|].
  pose proof (Hclient [text_part input] w) as He.
  destruct (SendMessage client [text_part input] w) as [[resp [e|]] w1];
    [|done].
  destruct (IH w1) as [Hleft Hmsgs].
  destruct (range_input registry client ctx fuel lines w1)
    as [[left w2] e2].
  cbn [fst snd] in *. split; [done|].
  cbn [fmap list_fmap]. by rewrite <- Hmsgs.
Qed.

End InputLoop.

Section Program.
Import main.
Context {W : Type}.
Variable client : Client W.

(** X25: a run of [main] that ends in [log.Fatal] has sent no message
    and printed nothing; the fatal line is the last thing it did. *)
Theorem fatal_start_sends_nothing env fuel w :
  (main client env fuel w).1.1 = Fatal →
  messages (main client env fuel w).2 = [] ∧
  prints (main client env fuel w).2 = [] ∧
  ∃ msg, last (main client env fuel w).2 = Some (EvFatal msg).
Proof.
  unfold main, mbind, M_bind, emit, call.
  destruct (String.eqb (GEMINI_API_KEY env) "").
  { intros _. repeat split. by eexists. }
  destruct (NewClient client (GEMINI_API_KEY env) w) as [[e|] w1].
  { intros _. repeat split. by eexists. }
  destruct (Chats_Create client "gemini-1.5-flash" genaiTools w1)
    as [[e|] w2].
  { intros _. repeat split. by eexists. }
  destruct (range_input toolRegistry client Background fuel (stdin env) w2)
    as [[[|] w3] e3]; [|done].
  by destruct (scanner_Err env).
Qed.

End Program.

(** ** A tool behind the interface *)
Section ReaderRegistered.
Import main.
Context `{Platform} {W : Type}.
Variable registry : gmap string (Tool W).
Variable ctx : Context.
Variable reader : ReadManyFilesTool.t.

Lemma Execute_without_paths args :
  (∀ paths, args !! "paths" ≠ Some (ASlice paths)) →
  ReadManyFilesTool.Execute reader ctx args
  = (None, Some "missing or invalid 'paths' argument").
Proof.
  intros Hpaths. unfold ReadManyFilesTool.Execute, index.
  destruct (args !! "paths") as [[| | | |paths|]|] eqn:E; try reflexivity.
  by destruct (Hpaths paths).
Qed.

(** X26: with the reader registered under the name of its declaration, a
    call that lacks an array "paths" does not end the turn: the reader
    runs once, the world is left as it is, and the response carries, in
    its "error" field, "missing or invalid 'paths' argument". *)
Theorem invalid_arguments_are_answered c part toolResponses text w :
  registry !! Name (ReadManyFilesTool.Declaration reader)
  = Some (ReadManyFilesTool_Tool reader) →
  FunctionCall_ part = Some c →
  fc_Name c = "read_many_files" →
  (∀ paths, fc_Args c !! "paths" ≠ Some (ASlice paths)) →
  range_Parts_body registry ctx (toolResponses, text) part w
  = ((toolResponses
        ++ [error_response c "missing or invalid 'paths' argument"], text),
     w,
     [EvLog (LogCalled "read_many_files" (fc_Args c));
      EvExecute "read_many_files" (fc_Args c);
      EvLog (LogToolError "read_many_files"
               "missing or invalid 'paths' argument")]).
Proof.
  intros Hreg Hpart Hname Hpaths. simpl in Hreg. rewrite <- Hname in Hreg.
  rewrite (range_Parts_body_known registry ctx c part _ _ _ _ Hreg Hpart).
  simpl. rewrite (Execute_without_paths _ Hpaths). by rewrite Hname.
Qed.

End ReaderRegistered.

(** ** The first version of [main] *)
Section FirstVersion.
Import main.
Context {W : Type}.
Variable client : Client W.

Lemma v1_range_Parts parts (w : W) :
  main_v1.range_Parts parts w
  = (tt, w,
     EvPrint
       <$> omap (λ part,
                   if String.eqb (Text part) "" then None
                   else Some ("Gemini: " +:+ Text part +:+ LF)) parts).
Proof.
  revert w. induction parts as [|part parts IH]; intros w; [done|].
  cbn [main_v1.range_Parts]. unfold mbind, M_bind.
  destruct (String.eqb (Text part) "") eqn:E; simpl;
    rewrite IH, E; reflexivity.
Qed.

Lemma v1_range_Candidates cands (w : W) :
  main_v1.range_Candidates cands w
  = (tt, w,
     EvPrint
       <$> omap (λ part,
                   if String.eqb (Text part) "" then None
                   else Some ("Gemini: " +:+ Text part +:+ LF))
                (all_parts cands)).
Proof.
  revert w. induction cands as [|cand cands IH]; intros w; [done|].
  cbn [main_v1.range_Candidates all_parts flat_map].
  destruct (Content_ cand) as [content|]; [|apply IH].
  unfold mbind, M_bind. rewrite v1_range_Parts, IH.
  by rewrite omap_app, fmap_app.
Qed.

(** X27: the first version prints every non-empty text of every part of
    every candidate that has a content, each after "Gemini: " and on a
    line of its own, in order; it does nothing else with an answer, and
    never looks at a function call. *)
Theorem v1_prints_every_text cands (w : W) :
  main_v1.range_Candidates cands w
  = (tt, w,
     EvPrint
       <$> omap (λ part,
                   if String.eqb (Text part) "" then None
                   else Some ("Gemini: " +:+ Text part +:+ LF))
                (all_parts cands)).
Proof. apply v1_range_Candidates. Qed.

Lemma messages_prints (l : list string) : messages (EvPrint <$> l) = [].
Proof. by induction l. Qed.

(** X28: the first version sends exactly one message, of one text part,
    for every input line before "quit", whatever the model answers. *)
Theorem v1_one_message_per_line lines w :
  messages (main_v1.range_input client lines w).2
  = (λ input, [text_part input]) <$> before_quit lines.
Proof.
  revert w. induction lines as [|input lines IH]; intros w; [done|].
  cbn [main_v1.range_input before_quit].
  unfold mbind, M_bind, emit, call.
  destruct (String.eqb input "quit"); [done|].
  destruct (SendMessage client [text_part input] w) as [[resp [e|]] w1].
  - specialize (IH w1).
    destruct (main_v1.range_input client lines w1) as [[u w2] e2].
    cbn [fst snd fmap list_fmap] in *. by rewrite <- IH.
  - destruct resp as [r|].
    + destruct (Nat.eqb (List.length (Candidates r)) 0).
      * specialize (IH w1).
        destruct (main_v1.range_input client lines w1) as [[u w2] e2].
        cbn [fst snd fmap list_fmap] in *. by rewrite <- IH.
      * rewrite v1_range_Candidates. specialize (IH w1).
        destruct (main_v1.range_input client lines w1) as [[u w2] e2].
        cbn [fst snd fmap list_fmap] in *. rewrite <- IH.
        unfold messages. cbn [omap list_omap app].
        rewrite omap_app. fold (messages e2).
        match goal with
        | |- context [omap _ (EvPrint <$> ?l)] =>
            change (omap _ (EvPrint <$> l)) with (messages (EvPrint <$> l));
            rewrite (messages_prints l)
        end.
        reflexivity.
    + specialize (IH w1).
      destruct (main_v1.range_input client lines w1) as [[u w2] e2].
      cbn [fst snd fmap list_fmap] in *. by rewrite <- IH.
Qed.

End FirstVersion.

(** X18 at a call of the registered "ping" in the world 0. *)
Lemma ping_runs_once :
  main.range_Parts_body examples.registry Background ([], "")
    (call_part examples.call_ping) 0%nat
  = let '((toolResult, toolErr), w') :=
      Execute examples.ping Background ∅ 0%nat in
    match toolErr with
    | Some e =>
        (([] ++ [error_response examples.call_ping e], ""), w',
         [main.EvLog (main.LogCalled "ping" ∅);
          main.EvExecute "ping" ∅;
          main.EvLog (main.LogToolError "ping" e)])
    | None =>
        (([] ++ [response_part {| fr_Name := "ping";
                                  fr_Response := toolResult |}], ""), w',
         [main.EvLog (main.LogCalled "ping" ∅);
          main.EvExecute "ping" ∅])
    end.
Proof.
  apply (registered_tool_runs_once examples.registry Background
           examples.call_ping (call_part examples.call_ping) examples.ping
           [] "" 0%nat);
    reflexivity.
Defined.

(** X21 at a response of the texts "Hi", "" and " there". *)
Lemma greeting_ends_turn :
  main.toolCallLoop examples.registry examples.silent Background 1
    (Some more_examples.greeting) 0%nat
  = (true, 0%nat,
     if String.eqb
          (model_text (all_parts (Candidates more_examples.greeting))) ""
     then []
     else [main.EvPrint
             ("Gemini: "
                +:+ model_text (all_parts (Candidates more_examples.greeting))
                +:+ LF)]).
Proof.
  apply (text_response_ends_turn examples.registry examples.silent
           Background more_examples.greeting 0%nat 0%nat).
  - discriminate.
  - reflexivity.
Defined.

(** The turn of that witness, computed. *)
Example greeting_is_printed :
  main.toolCallLoop examples.registry examples.silent Background 1
    (Some more_examples.greeting) 0%nat
  = (true, 0%nat, [main.EvPrint ("Gemini: Hi there" +:+ LF)]).
Proof. reflexivity. Qed.

(** X22 at a model that asks for "ping" forever, followed for three
    turns. *)
Lemma insistent_model_three_turns :
  (main.toolCallLoop examples.registry more_examples.insistent Background 3
     (Some more_examples.ask_ping) 0%nat).1.1 = false ∧
  List.length
    (messages
       (main.toolCallLoop examples.registry more_examples.insistent
          Background 3 (Some more_examples.ask_ping) 0%nat).2)
  = 3%nat.
Proof.
  apply (loop_runs_while_model_calls examples.registry
           more_examples.insistent Background more_examples.ask_ping
           3%nat 0%nat).
  - intros parts w0. eexists _, _. split; [reflexivity|discriminate].
  - discriminate.
Defined.

(** X24 at a model that cannot be reached and three lines of input. *)
Lemma unreachable_model_two_lines :
  (main.range_input examples.registry more_examples.unreachable Background
     0 ["hello"; "again"; "quit"; "never"] 0%nat).1.1 = true ∧
  messages
    (main.range_input examples.registry more_examples.unreachable Background
       0 ["hello"; "again"; "quit"; "never"] 0%nat).2
  = (λ input, [text_part input])
      <$> before_quit ["hello"; "again"; "quit"; "never"].
Proof.
  apply (unreachable_model_skips_turns examples.registry
           more_examples.unreachable Background 0%nat
           ["hello"; "again"; "quit"; "never"] 0%nat).
  intros parts w0. discriminate.
Defined.

(** X25 at a process started without the credential. *)
Lemma missing_key_is_fatal :
  messages (main.main examples.silent more_examples.no_key 5 tt).2 = [] ∧
  prints (main.main examples.silent more_examples.no_key 5 tt).2 = [] ∧
  ∃ msg,
    last (main.main examples.silent more_examples.no_key 5 tt).2
    = Some (main.EvFatal msg).
Proof.
  apply (fatal_start_sends_nothing examples.silent more_examples.no_key
           5%nat tt).
  reflexivity.
Defined.

(** X26 at a call of the reader without arguments. *)
Lemma reader_without_paths_is_answered :
  main.range_Parts_body more_examples.reader_registry Background ([], "")
    (call_part more_examples.call_reader) tt
  = (([] ++ [error_response more_examples.call_reader
               "missing or invalid 'paths' argument"], ""),
     tt,
     [main.EvLog (main.LogCalled "read_many_files" ∅);
      main.EvExecute "read_many_files" ∅;
      main.EvLog (main.LogToolError "read_many_files"
                    "missing or invalid 'paths' argument")]).
Proof.
  apply (invalid_arguments_are_answered (H := examples.platform)
           more_examples.reader_registry Background examples.reader
           more_examples.call_reader (call_part more_examples.call_reader)
           [] "" tt).
  - reflexivity.
  - reflexivity.
  - reflexivity.
  - intros paths. discriminate.
Defined.
